(** * A book inventory kept in a JSON file: the record store of [main.py]

    The development embeds [main.py]: the classes [Book] and [Library]
    and the menu of [main], and settles the properties of the store
    against them.

    - Python values are the inductive [pyval]: the values [json.load] can
      produce, fractional numbers apart.  Integers are unbounded (the
      limit CPython puts on the digits of a numeral when it prints one is
      left out).
    - Text is a [string] holding the UTF-8 bytes of the Python [str].
    - What the interpreter does with text is taken from the class
      [Runtime]: [str.lower], [int] of a text and [repr] of a text are
      its operations.  They are known exactly on plain text (ASCII and
      the Cyrillic letters U+0400..U+045F, numerals of at most 4300
      characters), where they are the functions of [Plain], and are left
      open on any other text.  In the same way [Book.Attributes] holds
      which names Python finds on the class [Book] and what they show.
    - A [Book] object carries the address CPython gives it ([Book.addr]),
      which is what [id(self)] returns and what [list.remove] compares.
    - The backing file is known by what [open] and [json.load] make of it.
      How a writing of the file goes is the system's to say ([writing]):
      the methods of [Library] are the calls that return, their writing
      completing, and [Call] holds the same methods whichever way the
      writing goes; the menu runs the latter, on a [Menu.Medium].
    - What a method prints is the only signal it gives its caller; it is
      kept as a structured [message] in the [stdout] of the [world].
      Printing is taken to work, and so is reading a line as long as
      there is one. *)

From Stdlib Require Import ZArith List String Ascii Bool Lia Permutation.
From Stdlib Require Import DecimalString DecimalZ.
Import ListNotations.

Local Open Scope Z_scope.
Local Open Scope string_scope.
Local Open Scope list_scope.

Set Warnings "-register-all".

(** ** Exceptions and results *)

Inductive exn : Type :=
| KeyError (key : string)
| TypeError
| ValueError
| JSONDecodeError
| UnicodeDecodeError
| UnicodeEncodeError
| RecursionError
| OSError.

Inductive py_result (A : Type) : Type :=
| Ok (a : A)
| Raise (e : exn).

Arguments Ok {A} a.
Arguments Raise {A} e.

Definition bind {A B : Type} (m : py_result A) (k : A -> py_result B)
  : py_result B :=
  match m with
  | Ok a => k a
  | Raise e => Raise e
  end.

Declare Scope py_scope.
Delimit Scope py_scope with py.
Notation "x <- m ;; k" := (bind m (fun x => k))
  (at level 61, m at next level, right associativity) : py_scope.
Local Open Scope py_scope.

Definition is_ok {A : Type} (m : py_result A) : bool :=
  match m with
  | Ok _ => true
  | Raise _ => false
  end.

(** [[x for x in l if p(x)]], where evaluating [p] may raise: the condition
    is evaluated once per element, in order, and not at all on an empty
    list. *)
Fixpoint filterM {A : Type} (p : A -> py_result bool) (l : list A)
  : py_result (list A) :=
  match l with
  | [] => Ok []
  | x :: l' =>
      b <- p x ;;
      r <- filterM p l' ;;
      Ok (if b then x :: r else r)
  end.

(** [[f(i, x) for x in l]] with [f] raising, the index counting from [n]. *)
Fixpoint mapiM {A B : Type} (f : nat -> A -> py_result B) (n : nat) (l : list A)
  : py_result (list B) :=
  match l with
  | [] => Ok []
  | x :: l' =>
      y <- f n x ;;
      r <- mapiM f (S n) l' ;;
      Ok (y :: r)
  end.

(** ** Python values *)

(** A [PDict] lists its entries in insertion order; the keys of a dict
    that Python builds are distinct, which nothing below relies on. *)
Inductive pyval : Type :=
| PNone
| PBool (b : bool)
| PInt (z : Z)
| PStr (s : string)
| PList (l : list pyval)
| PDict (d : list (string * pyval)).

(** ** Plain text

    The operations on text as they are on plain text. *)

Module Plain.

Local Open Scope string_scope.

Definition byte (c : ascii) : N := N_of_ascii c.

Definition between (lo hi : N) (c : ascii) : bool :=
  ((lo <=? byte c) && (byte c <=? hi))%N.

Definition shift_byte (c : ascii) (d : Z) : ascii :=
  ascii_of_N (Z.to_N (Z.of_N (byte c) + d)).

(** The quotation mark, written by its code. *)
Definition dquote : ascii := "034"%char.
Definition squote : ascii := "'"%char.
Definition backslash : ascii := "\"%char.

(** *** [str.lower] on plain text

    Lower-casing of the Latin letters of ASCII and of the Cyrillic
    letters U+0400..U+042F, the alphabets of the program's own texts; in
    UTF-8 the latter are the two-byte sequences D0 80 .. D0 AF, and their
    lower-case forms are D1 90..9F, D0 B0..BF and D1 80..8F.  The other
    characters of plain text have no lower-case form of their own. *)
Fixpoint lower (s : string) : string :=
  match s with
  | EmptyString => EmptyString
  | String c rest =>
      if between 65 90 c then String (shift_byte c 32) (lower rest)
      else if (byte c =? 208)%N then
        match rest with
        | String d rest' =>
            if between 128 143 d then
              String "209"%char (String (shift_byte d 16) (lower rest'))
            else if between 144 159 d then
              String "208"%char (String (shift_byte d 32) (lower rest'))
            else if between 160 175 d then
              String "209"%char (String (shift_byte d (-32)) (lower rest'))
            else String c (lower rest)
        | EmptyString => String c EmptyString
        end
      else String c (lower rest)
  end.

(** *** [repr] of a plain text *)

Definition hex_digit (n : N) : ascii :=
  if (n <? 10)%N then ascii_of_N (48 + n) else ascii_of_N (87 + n).

Fixpoint contains (c : ascii) (s : string) : bool :=
  match s with
  | EmptyString => false
  | String c' rest => Ascii.eqb c c' || contains c rest
  end.

(** One character inside a quoted [repr], [q] being the quote in use. *)
Definition repr_char (q c : ascii) : string :=
  if Ascii.eqb c backslash then String backslash (String backslash EmptyString)
  else if Ascii.eqb c q then String backslash (String q EmptyString)
  else if (byte c =? 9)%N then "\t"
  else if (byte c =? 10)%N then "\n"
  else if (byte c =? 13)%N then "\r"
  else if ((byte c <? 32) || (byte c =? 127))%N then
    String backslash
      (String "x" (String (hex_digit (byte c / 16))
                     (String (hex_digit (byte c mod 16)) EmptyString)))
  else String c EmptyString.

Fixpoint repr_chars (q : ascii) (s : string) : string :=
  match s with
  | EmptyString => EmptyString
  | String c rest => repr_char q c ++ repr_chars q rest
  end.

Definition repr_str (s : string) : string :=
  let q := if contains squote s && negb (contains dquote s)
           then dquote else squote in
  String q (repr_chars q s ++ String q EmptyString).

(** *** [int] of an ASCII text

    Blanks are stripped on both sides, then come an optional sign and
    decimal digits, single underscores allowed between digits. *)

Definition is_space (c : ascii) : bool :=
  between 9 13 c || (byte c =? 32)%N.

Definition is_digit (c : ascii) : bool := between 48 57 c.

Definition digit_val (c : ascii) : Z := Z.of_N (byte c) - 48.

Fixpoint lstrip (s : string) : string :=
  match s with
  | String c rest => if is_space c then lstrip rest else s
  | EmptyString => EmptyString
  end.

Fixpoint rstrip (s : string) : string :=
  match s with
  | String c rest =>
      match rstrip rest with
      | EmptyString => if is_space c then EmptyString else String c EmptyString
      | r => String c r
      end
  | EmptyString => EmptyString
  end.

(** A digit, then either the end, or an underscore and a numeral again,
    or a numeral again. *)
Fixpoint digits (acc : Z) (s : string) : option Z :=
  match s with
  | EmptyString => None
  | String c rest =>
      if is_digit c then
        let acc' := 10 * acc + digit_val c in
        match rest with
        | EmptyString => Some acc'
        | String d rest' =>
            if Ascii.eqb d "_" then digits acc' rest' else digits acc' rest
        end
      else None
  end.

Definition int_of_string (s : string) : py_result Z :=
  let numeral (t : string) :=
    match digits 0 t with
    | Some z => Ok z
    | None => Raise ValueError
    end in
  match rstrip (lstrip s) with
  | String c rest =>
      if Ascii.eqb c "+" then numeral rest
      else if Ascii.eqb c "-" then z <- numeral rest ;; Ok (- z)
      else numeral (String c rest)
  | EmptyString => Raise ValueError
  end.

Definition is_cont (c : ascii) : bool := between 128 191 c.

(** The characters of a text, each with its UTF-8 continuation bytes. *)
Fixpoint chars (s : string) : list string :=
  match s with
  | EmptyString => []
  | String c rest =>
      match chars rest with
      | x :: xs =>
          if match x with String d _ => is_cont d | EmptyString => false end
          then String c x :: xs
          else String c EmptyString :: x :: xs
      | [] => [String c EmptyString]
      end
  end.

(** *** The texts on which the functions above are exact *)

Fixpoint ascii (s : string) : bool :=
  match s with
  | EmptyString => true
  | String c rest => (byte c <? 128)%N && ascii rest
  end.

(** ASCII and the characters U+0400..U+045F, in UTF-8 the two-byte
    sequences D0 80..BF and D1 80..9F. *)
Fixpoint plain (s : string) : bool :=
  match s with
  | EmptyString => true
  | String c rest =>
      if (byte c <? 128)%N then plain rest
      else
        match rest with
        | String d rest' =>
            (((byte c =? 208)%N && between 128 191 d)
             || ((byte c =? 209)%N && between 128 159 d))
            && plain rest'
        | EmptyString => false
        end
  end.

End Plain.

(** ** What is taken from the interpreter *)

(** [str_lower s] is [s.lower()], [str_int s] is [int(s)] and [str_repr s]
    is [repr(s)] for a text [s].  Only the empty text has an empty
    lower-case form, and [int] of a text raises nothing but a
    [ValueError]. *)
Class Runtime : Type := {
  str_lower : string -> string;
  str_int : string -> py_result Z;
  str_repr : string -> string;
  lower_plain : forall s, Plain.plain s = true -> str_lower s = Plain.lower s;
  lower_empty : forall s, str_lower s = EmptyString -> s = EmptyString;
  repr_plain : forall s, Plain.plain s = true -> str_repr s = Plain.repr_str s;
  int_ascii :
    forall s, Plain.ascii s = true -> (String.length s <= 4300)%nat ->
              str_int s = Plain.int_of_string s;
  int_raises : forall s e, str_int s = Raise e -> e = ValueError
}.

(** The runtime that does to every text what is done to plain text; the
    examples, whose texts are plain, are evaluated in it. *)
#[export] Instance plain_runtime : Runtime.
Proof.
  refine {| str_lower := Plain.lower;
            str_int := Plain.int_of_string;
            str_repr := Plain.repr_str;
            lower_plain := fun _ _ => eq_refl;
            lower_empty := _;
            repr_plain := fun _ _ => eq_refl;
            int_ascii := fun _ _ _ => eq_refl;
            int_raises := _ |}.
  { intros [| c rest]; [reflexivity |]. simpl.
    destruct (Plain.between 65 90 c); [discriminate |].
    destruct (Plain.byte c =? 208)%N; [| discriminate].
    destruct rest as [| d rest']; [discriminate |].
    destruct (Plain.between 128 143 d); [discriminate |].
    destruct (Plain.between 144 159 d); [discriminate |].
    destruct (Plain.between 160 175 d); discriminate. }
  intros s e. unfold Plain.int_of_string.
  destruct (Plain.rstrip (Plain.lstrip s)) as [| c rest]; [now intros [= <-] |].
  destruct (Ascii.eqb c "+"); [| destruct (Ascii.eqb c "-")].
  - destruct (Plain.digits 0 rest); [discriminate | now intros [= <-]].
  - destruct (Plain.digits 0 rest); simpl; [discriminate | now intros [= <-]].
  - destruct (Plain.digits 0 (String c rest)); [discriminate | now intros [= <-]].
Defined.

(** ** The built-in functions *)

Module Py.

Local Open Scope string_scope.

Definition repr_int (z : Z) : string := NilZero.string_of_int (Z.to_int z).

Fixpoint join (sep : string) (l : list string) : string :=
  match l with
  | [] => EmptyString
  | [x] => x
  | x :: l' => x ++ sep ++ join sep l'
  end.

Section Texts.

Context {rt : Runtime}.

(** [s.lower()] *)
Definition lower (s : string) : string := str_lower s.

(** [int(s)] for a text [s] *)
Definition int_of_string (s : string) : py_result Z := str_int s.

Fixpoint repr (v : pyval) : string :=
  match v with
  | PNone => "None"
  | PBool true => "True"
  | PBool false => "False"
  | PInt z => repr_int z
  | PStr s => str_repr s
  | PList l => "[" ++ join ", " (map repr l) ++ "]"
  | PDict d =>
      "{" ++ join ", " (map (fun kv => str_repr (fst kv) ++ ": " ++ repr (snd kv)) d)
          ++ "}"
  end.

(** [str(v)]: the text itself for a [str], the [repr] otherwise. *)
Definition str (v : pyval) : string :=
  match v with
  | PStr s => s
  | _ => repr v
  end.

(** [int(v)] *)
Definition int (v : pyval) : py_result Z :=
  match v with
  | PInt z => Ok z
  | PBool b => Ok (if b then 1 else 0)
  | PStr s => int_of_string s
  | PNone | PList _ | PDict _ => Raise TypeError
  end.

End Texts.

(** [v == n] for an integer [n]: only an [int] (or a [bool], which is
    one) of the same value is equal to it. *)
Definition eq_int (v : pyval) (n : Z) : bool :=
  match v with
  | PInt z => (z =? n)%Z
  | PBool b => ((if b then 1 else 0) =? n)%Z
  | _ => false
  end.

(** *** Subscription and iteration *)

Fixpoint lookup (key : string) (d : list (string * pyval)) : option pyval :=
  match d with
  | [] => None
  | (k, v) :: d' => if String.eqb k key then Some v else lookup key d'
  end.

(** [data[key]] for a text [key]. *)
Definition getitem (data : pyval) (key : string) : py_result pyval :=
  match data with
  | PDict d =>
      match lookup key d with
      | Some v => Ok v
      | None => Raise (KeyError key)
      end
  | _ => Raise TypeError
  end.

(** What [for x in data] goes through. *)
Definition iter (data : pyval) : py_result (list pyval) :=
  match data with
  | PList l => Ok l
  | PDict d => Ok (map (fun kv => PStr (fst kv)) d)
  | PStr s => Ok (map PStr (Plain.chars s))
  | PNone | PBool _ | PInt _ => Raise TypeError
  end.

End Py.

(** ** class Book *)

Module Book.

(** [addr] is the identity of the object: the address CPython allocated
    it at.  The other fields are the attributes [__init__] binds. *)
Record t : Type := mk {
  addr : Z;
  id : pyval;
  title : pyval;
  author : pyval;
  year : pyval;
  status : pyval
}.

Definition set_id (book : t) (v : pyval) : t :=
  mk (addr book) v (title book) (author book) (year book) (status book).

Definition set_status (book : t) (v : pyval) : t :=
  mk (addr book) (id book) (title book) (author book) (year book) v.

(** [x is y] *)
Definition same_object (x y : t) : bool := (addr x =? addr y)%Z.

(** [__init__(self, title, author, year)]; [self] is the address of the
    object being initialised, so [id(self)] is [self]. *)
Definition init (self : Z) (title author year : pyval) : t :=
  {| addr := self;
     id := PInt self;
     title := title;
     author := author;
     year := year;
     status := PStr "в наличии" |}.

Definition to_dict (self : t) : pyval :=
  PDict [ ("id", id self);
          ("title", title self);
          ("author", author self);
          ("year", year self);
          ("status", status self) ].

(** [from_dict(data)]; [self] is the address the new object gets. *)
Definition from_dict (self : Z) (data : pyval) : py_result t :=
  title <- Py.getitem data "title" ;;
  author <- Py.getitem data "author" ;;
  year <- Py.getitem data "year" ;;
  let book := init self title author year in
  i <- Py.getitem data "id" ;;
  let book := set_id book i in
  s <- Py.getitem data "status" ;;
  let book := set_status book s in
  Ok book.

Definition fields : list string := ["id"; "title"; "author"; "year"; "status"].

(** The shape of the names that Python can find on the class instead
    of the instance: the two methods and the double-underscore names. *)
Definition dunder (name : string) : bool :=
  String.prefix "__" name
  && String.eqb (String.substring (String.length name - 2) 2 name) "__".

Definition class_name (name : string) : bool :=
  String.eqb name "to_dict" || String.eqb name "from_dict" || dunder name.

(** What the class gives: [on_class name] tells whether [name] is found
    on the class [Book] (a method, [__doc__], [__dict__] and the like), and
    [class_text book name] is the text [str] makes of what is found there
    for the object [book].  Only names of the shape [class_name] are
    found, the two methods among them. *)
Class Attributes : Type := {
  on_class : string -> bool;
  class_text : t -> string -> string;
  on_class_name : forall name, on_class name = true -> class_name name = true;
  on_class_methods : on_class "to_dict" = true /\ on_class "from_dict" = true
}.

(** What [getattr] finds: a value bound on the instance (or the default),
    or whatever the class has under the name. *)
Inductive attribute : Type :=
| Bound (v : pyval)
| OnClass (name : string).

Section Lookup.

Context {rt : Runtime} {attrs : Attributes}.

(** [getattr(book, name, default)] *)
Definition getattr (book : t) (name : string) (default : pyval) : attribute :=
  if String.eqb name "id" then Bound (id book)
  else if String.eqb name "title" then Bound (title book)
  else if String.eqb name "author" then Bound (author book)
  else if String.eqb name "year" then Bound (year book)
  else if String.eqb name "status" then Bound (status book)
  else if on_class name then OnClass name
  else Bound default.

(** [str(a)] for what [getattr] found on [book]. *)
Definition text (book : t) (a : attribute) : string :=
  match a with
  | Bound v => Py.str v
  | OnClass name => class_text book name
  end.

End Lookup.

(** Two objects holding the same record: equal in all five fields. *)
Definition same_record (x y : t) : Prop :=
  id x = id y /\ title x = title y /\ author x = author y
  /\ year x = year y /\ status x = status y.

End Book.

(** A class on which every name of the shape [class_name] is found and
    shows as the name between angle brackets; the examples, which use no
    such name, are evaluated with it. *)
#[export] Instance plain_attributes : Book.Attributes :=
  {| Book.on_class := Book.class_name;
     Book.class_text := fun _ name => ("<" ++ name ++ ">")%string;
     Book.on_class_name := fun _ H => H;
     Book.on_class_methods := conj eq_refl eq_refl |}.

(** ** The backing file and the output *)

(** A file as [open] and [json.load] see it.  Writing a document and
    reading it back gives the document: the JSON encoding itself is taken
    as given.  [json.load] also raises on some texts that are JSON: a
    [ValueError] on a numeral longer than [int] converts, a
    [RecursionError] on a nesting too deep. *)
Inductive file : Type :=
| NoFile                      (* [open] raises FileNotFoundError *)
| NoAccess                    (* [open] raises another OSError *)
| NotText                     (* reading raises UnicodeDecodeError *)
| NotJSON                     (* [json.load] raises JSONDecodeError *)
| Unloadable (e : exn)        (* [json.load] raises [e] on a text that is JSON *)
| Document (data : pyval).    (* [json.load] returns [data] *)

Definition filesystem : Type := string -> file.

Definition write (disk : filesystem) (path : string) (f : file) : filesystem :=
  fun p => if String.eqb p path then f else disk p.

(** How [with open(path, "w") as file: json.dump(...)] goes.  [open] may
    refuse the path, and the file is as it was.  Once [open] has emptied
    the file, [json.dump] may raise, on a text that cannot be encoded
    say, or the system on the writing itself; the file [holds] what had
    been written by then. *)
Inductive writing : Type :=
| Completes
| Refused                             (* [open] raises OSError *)
| Broken (e : exn) (holds : file).    (* raised after [open] *)

(** The exception of a writing that does not complete. *)
Definition error_of (o : writing) : option exn :=
  match o with
  | Completes => None
  | Refused => Some OSError
  | Broken e _ => Some e
  end.

(** The lines a method can print. *)
Inductive message : Type :=
| Added (title id : pyval)
| Deleted (book_id : Z)
| NotFound (book_id : Z)
| BadStatus
| StatusChanged (book_id : Z) (status : string).

Section Output.

Context {rt : Runtime}.

Definition render (m : message) : string :=
  (match m with
   | Added title id =>
       "Книга '" ++ Py.str title ++ "' успешно добавлена с id " ++ Py.str id ++ "."
   | Deleted book_id =>
       "Книга с id " ++ Py.repr_int book_id ++ " успешно удалена."
   | NotFound book_id =>
       "Книга с id " ++ Py.repr_int book_id ++ " не найдена."
   | BadStatus =>
       "Некорректный статус. Выберите 'в наличии' или 'выдана'."
   | StatusChanged book_id status =>
       "Статус книги с id " ++ Py.repr_int book_id ++ " изменён на '" ++ status ++ "'."
   end)%string.

End Output.

(** ** class Library *)

Module Library.

Record t : Type := mk {
  file_path : string;
  books : list Book.t
}.

(** The library object, the files it can reach and what was printed. *)
Record world : Type := World {
  self : t;
  disk : filesystem;
  stdout : list message
}.

Definition set_books (w : world) (bs : list Book.t) : world :=
  World (mk (file_path (self w)) bs) (disk w) (stdout w).

Definition print (w : world) (m : message) : world :=
  World (self w) (disk w) (stdout w ++ [m]).

(** [load_books]: the [i]-th object of the comprehension is allocated at
    [alloc i].  A missing file gives the empty list; any other failure,
    of opening, of reading or of decoding, propagates. *)
Definition load_books (alloc : nat -> Z) (w : world) : py_result world :=
  match disk w (file_path (self w)) with
  | NoFile => Ok (set_books w [])
  | NoAccess => Raise OSError
  | NotText => Raise UnicodeDecodeError
  | NotJSON => Raise JSONDecodeError
  | Unloadable e => Raise e
  | Document data =>
      items <- Py.iter data ;;
      bs <- mapiM (fun i book => Book.from_dict (alloc i) book) 0 items ;;
      Ok (set_books w bs)
  end.

(** [Library(file_path)] *)
Definition init (file_path : string) (alloc : nat -> Z) (disk : filesystem)
  : py_result world :=
  load_books alloc (World (mk file_path []) disk []).

(** [save_books], the writing completing: the file is replaced by the
    document of the collection.  The methods of this module that save
    are the calls that return; [Call] has them whichever way the writing
    goes. *)
Definition save_books (w : world) : world :=
  World (self w)
        (write (disk w) (file_path (self w))
               (Document (PList (map Book.to_dict (books (self w))))))
        (stdout w).

(** [add_book]; [a] is the address of the new object. *)
Definition add_book (a : Z) (title author year : pyval) (w : world) : world :=
  let new_book := Book.init a title author year in
  let w := set_books w (books (self w) ++ [new_book]) in
  let w := save_books w in
  print w (Added title (Book.id new_book)).

(** [l.remove(x)]: drops the first entry that is [x]; [Book] defines no
    [__eq__], so that is the object itself.  (Python raises when there
    is none; [delete_book] only removes a book it found in the list.) *)
Fixpoint list_remove (x : Book.t) (l : list Book.t) : list Book.t :=
  match l with
  | [] => []
  | y :: l' => if Book.same_object y x then l' else y :: list_remove x l'
  end.

(** The scan [for book in self.books: if book.id == book_id: ...; return] *)
Definition scan (book_id : Z) (l : list Book.t) : option Book.t :=
  find (fun book => Py.eq_int (Book.id book) book_id) l.

Definition delete_book (book_id : Z) (w : world) : world :=
  match scan book_id (books (self w)) with
  | Some book =>
      let w := set_books w (list_remove book (books (self w))) in
      let w := save_books w in
      print w (Deleted book_id)
  | None => print w (NotFound book_id)
  end.

Section Search.

Context {rt : Runtime} {attrs : Book.Attributes}.

(** One criterion of [search_books], applied to the current [result].
    The conversion [int(value)] sits in the condition of the
    comprehension: it is evaluated for each book of [result]. *)
Definition search_step (key : string) (value : pyval) (result : list Book.t)
  : py_result (list Book.t) :=
  if String.eqb key "id" then
    filterM (fun book => n <- Py.int value ;; Ok (Py.eq_int (Book.id book) n))
            result
  else
    Ok (filter (fun book =>
                  String.eqb
                    (Py.lower (Book.text book (Book.getattr book key (PStr ""))))
                    (Py.lower (Py.str value)))
               result).

Fixpoint search_loop (criteria : list (string * pyval)) (result : list Book.t)
  : py_result (list Book.t) :=
  match criteria with
  | [] => Ok result
  | (key, value) :: criteria' =>
      r <- search_step key value result ;;
      search_loop criteria' r
  end.

(** [search_books]: the keyword arguments are the criteria, gone through
    in the order they were given.  A keyword [self] clashes with the
    first parameter, and the call raises before the body runs. *)
Definition search_books (criteria : list (string * pyval)) (w : world)
  : py_result (list Book.t) :=
  if existsb (String.eqb "self") (map fst criteria) then Raise TypeError
  else search_loop criteria (books (self w)).

End Search.

(** [book.status = status]: the object is changed in place, which every
    entry of the list that is this object shows. *)
Definition assign_status (book : Book.t) (status : pyval) (l : list Book.t)
  : list Book.t :=
  map (fun y => if Book.same_object y book then Book.set_status y status else y) l.

Definition statuses : list string := ["в наличии"; "выдана"].

Definition update_status (book_id : Z) (status : string) (w : world) : world :=
  if negb (existsb (String.eqb status) statuses) then print w BadStatus
  else
    match scan book_id (books (self w)) with
    | Some book =>
        let w := set_books w (assign_status book (PStr status) (books (self w))) in
        let w := save_books w in
        print w (StatusChanged book_id status)
    | None => print w (NotFound book_id)
    end.

(** The entries of the list are distinct objects. *)
Definition distinct_objects (l : list Book.t) : Prop :=
  NoDup (map Book.addr l).

(** A call that has ended: it returned, or it raised and left the world
    as it was by then. *)
Inductive outcome : Type :=
| Returns (w : world)
| Raises (e : exn) (w : world).

Definition state_of (r : outcome) : world :=
  match r with
  | Returns w => w
  | Raises _ w => w
  end.

Definition and_then (r : outcome) (k : world -> outcome) : outcome :=
  match r with
  | Returns w => k w
  | Raises e w => Raises e w
  end.

End Library.

(** ** The methods that save, whichever way the writing goes

    The same methods, the writing of the file going as [o] says.  A
    writing that does not complete raises out of [save_books] and out of
    the method that called it: the change made to the list stays, the
    line is not printed. *)

Module Call.

Import Library.

Declare Scope call_scope.
Delimit Scope call_scope with call.
Notation "w <- r ;; k" := (and_then r (fun w => k))
  (at level 61, r at next level, right associativity) : call_scope.
Local Open Scope call_scope.

Definition save_books (o : writing) (w : world) : outcome :=
  match o with
  | Completes => Returns (Library.save_books w)
  | Refused => Raises OSError w
  | Broken e holds =>
      Raises e (World (self w) (write (disk w) (file_path (self w)) holds)
                      (stdout w))
  end.

Definition add_book (o : writing) (a : Z) (title author year : pyval) (w : world)
  : outcome :=
  let new_book := Book.init a title author year in
  let w := set_books w (books (self w) ++ [new_book]) in
  w <- save_books o w ;;
  Returns (print w (Added title (Book.id new_book))).

Definition delete_book (o : writing) (book_id : Z) (w : world) : outcome :=
  match scan book_id (books (self w)) with
  | Some book =>
      let w := set_books w (list_remove book (books (self w))) in
      w <- save_books o w ;;
      Returns (print w (Deleted book_id))
  | None => Returns (print w (NotFound book_id))
  end.

Definition update_status (o : writing) (book_id : Z) (status : string) (w : world)
  : outcome :=
  if negb (existsb (String.eqb status) statuses) then Returns (print w BadStatus)
  else
    match scan book_id (books (self w)) with
    | Some book =>
        let w := set_books w (assign_status book (PStr status) (books (self w))) in
        w <- save_books o w ;;
        Returns (print w (StatusChanged book_id status))
    | None => Returns (print w (NotFound book_id))
    end.

End Call.

(** ** Notions the properties are stated with *)

Section Matching.

Context {rt : Runtime} {attrs : Book.Attributes}.

(** Text equality that ignores case. *)
Definition ci_equal (a b : string) : bool :=
  String.eqb (Py.lower a) (Py.lower b).

(** The matching rule for one criterion: the identifier by integer
    equality with the converted value, any other key by [ci_equal] of
    the text of what [getattr] finds under the key, a field of the book
    in the first place, and the text of the value. *)
Definition matches (book : Book.t) (c : string * pyval) : bool :=
  if String.eqb (fst c) "id" then
    match Py.int (snd c) with
    | Ok n => Py.eq_int (Book.id book) n
    | Raise _ => false
    end
  else ci_equal (Book.text book (Book.getattr book (fst c) (PStr "")))
                (Py.str (snd c)).

(** The value of an [id] criterion can be converted by [int]. *)
Definition convertible (c : string * pyval) : bool :=
  negb (String.eqb (fst c) "id") || is_ok (Py.int (snd c)).

End Matching.

(** No criterion is keyed [self]: the call binds its keywords. *)
Definition binds (criteria : list (string * pyval)) : bool :=
  negb (existsb (String.eqb "self") (map fst criteria)).

(** A mapping with the five keys of a record, whatever their values. *)
Definition has_fields (data : pyval) : bool :=
  match data with
  | PDict d =>
      forallb (fun key => match Py.lookup key d with
                          | Some _ => true
                          | None => false
                          end)
              Book.fields
  | _ => false
  end.

(** No two books of the list answer to the same identifier. *)
Definition unique_ids (l : list Book.t) : Prop :=
  forall n, (List.length (filter (fun b => Py.eq_int (Book.id b) n) l) <= 1)%nat.

(** The status of the book is one of the two that [update_status] takes. *)
Definition status_listed (b : Book.t) : Prop :=
  exists s, In s Library.statuses /\ Book.status b = PStr s.

(** A call of [add_book], with the address the allocator gives the new
    object. *)
Record add_call : Type := AddCall {
  new_addr : Z;
  new_title : pyval;
  new_author : pyval;
  new_year : pyval
}.

Definition add_one (c : add_call) (w : Library.world) : Library.world :=
  Library.add_book (new_addr c) (new_title c) (new_author c) (new_year c) w.

Fixpoint add_books (calls : list add_call) (w : Library.world) : Library.world :=
  match calls with
  | [] => w
  | c :: calls' => add_books calls' (add_one c w)
  end.

(** What CPython promises of [id]: at each call the new object is given an
    address that no object alive has, the books of the collection being
    alive. *)
Fixpoint fresh_addresses (calls : list add_call) (w : Library.world) : Prop :=
  match calls with
  | [] => True
  | c :: calls' =>
      ~ In (new_addr c) (map Book.addr (Library.books (Library.self w)))
      /\ fresh_addresses calls' (add_one c w)
  end.

(** The record a call creates and the line it prints. *)
Definition book_of_call (c : add_call) : Book.t :=
  Book.init (new_addr c) (new_title c) (new_author c) (new_year c).

Definition line_of_call (c : add_call) : message :=
  Added (new_title c) (PInt (new_addr c)).

(** The identifiers announced by the lines printed. *)
Definition announced_ids (out : list message) : list pyval :=
  flat_map (fun m => match m with
                     | Added _ i => [i]
                     | _ => []
                     end) out.

(** Sample data. *)
Definition dune : Book.t :=
  Book.mk 7 (PInt 7) (PStr "Dune") (PStr "Herbert") (PInt 1965) (PStr "в наличии").

Definition emma : Book.t :=
  Book.mk 9 (PInt 9) (PStr "Emma") (PStr "Austen") (PInt 1815) (PStr "выдана").

Definition no_files : filesystem := fun _ => NoFile.

Definition shelf (bs : list Book.t) : Library.world :=
  Library.World (Library.mk "library.json" bs) no_files [].

(** ** display_books and the menu *)

(** The backing file holds what [save_books] would write now. *)
Definition synced (self : Library.t) (disk : filesystem) : Prop :=
  disk (Library.file_path self)
  = Document (PList (map Book.to_dict (Library.books self))).

Section Display.

Context {rt : Runtime}.

(** The line printed for a book, by [display_books] and by the search of
    the menu. *)
Definition book_line (book : Book.t) : string :=
  ("ID: " ++ Py.str (Book.id book)
   ++ " | Название: " ++ Py.str (Book.title book)
   ++ " | Автор: " ++ Py.str (Book.author book)
   ++ " | Год: " ++ Py.str (Book.year book)
   ++ " | Статус: " ++ Py.str (Book.status book))%string.

(** [display_books], as the lines it prints. *)
Definition display_books (self : Library.t) : list string :=
  (match Library.books self with
   | [] => ["В библиотеке нет книг."]
   | _ :: _ => []
   end)
  ++ map book_line (Library.books self).

End Display.

Module Menu.

(** How [main] ends: by option 6, by [input] finding no line left, or by
    an exception that nothing catches. *)
Inductive ending : Type :=
| Exited
| EOFError
| Uncaught (e : exn).

(** The library of [main], the files, what the terminal shows (one entry
    per [print] or prompt), the lines still to be typed, and the number
    of [Book] objects allocated so far. *)
Record console : Type := Console {
  lib : Library.t;
  files : filesystem;
  screen : list string;
  stdin : list string;
  allocated : nat
}.

Inductive reply (A : Type) : Type :=
| Got (a : A) (c : console)
| Ended (e : ending) (c : console).

Arguments Got {A} a c.
Arguments Ended {A} e c.

Definition io (A : Type) : Type := console -> reply A.

(** How each writing of the file goes, which may depend on all there
    is at that point. *)
Class Medium : Type := {
  write_goes : console -> writing
}.

Definition ret {A : Type} (a : A) : io A := fun c => Got a c.

Definition and_then {A B : Type} (m : io A) (k : A -> io B) : io B :=
  fun c => match m c with
           | Got a c' => k a c'
           | Ended e c' => Ended e c'
           end.

Declare Scope io_scope.
Delimit Scope io_scope with io.
Notation "x <~ m ;; k" := (and_then m (fun x => k))
  (at level 61, m at next level, right associativity) : io_scope.
Notation "m ;;; k" := (and_then m (fun _ => k))
  (at level 61, right associativity) : io_scope.
Local Open Scope io_scope.

Section Program.

Context {rt : Runtime} {attrs : Book.Attributes} {md : Medium}.

(** Several [print]s in a row. *)
Definition say (lines : list string) : io unit :=
  fun c => Got tt (Console (lib c) (files c) (screen c ++ lines) (stdin c)
                           (allocated c)).

(** [input(prompt)]: the prompt is shown, then a line is read. *)
Definition input (prompt : string) : io string :=
  fun c => match stdin c with
           | [] => Ended EOFError
                         (Console (lib c) (files c) (screen c ++ [prompt]) []
                                  (allocated c))
           | line :: rest =>
               Got line (Console (lib c) (files c) (screen c ++ [prompt]) rest
                                 (allocated c))
           end.

(** [int(input(prompt))] outside any [try]. *)
Definition int_input (prompt : string) : io Z :=
  line <~ input prompt ;;
  fun c => match Py.int_of_string line with
           | Ok n => Got n c
           | Raise e => Ended (Uncaught e) c
           end.

Definition retry : string :=
  "Некорректный ввод. ID должен быть числом. Попробуйте снова.".

(** The loop [while True: try: book_id = int(input(prompt)); break;
    except ValueError: print(retry)], over the lines left. *)
Fixpoint ask_int (prompt : string) (lines shown : list string)
  : (Z + ending) * list string * list string :=
  match lines with
  | [] => (inr EOFError, [], shown ++ [prompt])
  | line :: rest =>
      match Py.int_of_string line with
      | Ok n => (inl n, rest, shown ++ [prompt])
      | Raise ValueError => ask_int prompt rest (shown ++ [prompt; retry])
      | Raise e => (inr (Uncaught e), rest, shown ++ [prompt])
      end
  end.

Definition read_int (prompt : string) : io Z :=
  fun c => match ask_int prompt (stdin c) (screen c) with
           | (inl n, rest, shown) =>
               Got n (Console (lib c) (files c) shown rest (allocated c))
           | (inr e, rest, shown) =>
               Ended e (Console (lib c) (files c) shown rest (allocated c))
           end.

(** The console a call leaves: the library and the files as the method
    left them, its lines on the screen. *)
Definition after (c : console) (w : Library.world) : console :=
  Console (Library.self w) (Library.disk w)
          (screen c ++ map render (Library.stdout w)) (stdin c) (allocated c).

(** A method of the library that returns nothing: it works on the library
    and the files, and its lines come on the screen.  Nothing in [main]
    catches what it raises. *)
Definition call (method : writing -> Library.world -> Library.outcome) : io unit :=
  fun c =>
    match method (write_goes c) (Library.World (lib c) (files c) []) with
    | Library.Returns w => Got tt (after c w)
    | Library.Raises e w => Ended (Uncaught e) (after c w)
    end.

(** [library.add_book(...)]: the new object is the next one the
    allocator [heap] places. *)
Definition add (heap : nat -> Z) (title author year : pyval) : io unit :=
  fun c =>
    call (fun o => Call.add_book o (heap (allocated c)) title author year)
         (Console (lib c) (files c) (screen c) (stdin c) (S (allocated c))).

(** [result = library.search_books(...)] *)
Definition search (criteria : list (string * pyval)) : io (list Book.t) :=
  fun c =>
    match Library.search_books criteria (Library.World (lib c) (files c) []) with
    | Ok result => Got result c
    | Raise e => Ended (Uncaught e) c
    end.

(** What option 3 prints of its [result]. *)
Definition show (result : list Book.t) : io unit :=
  match result with
  | [] => say ["Книги не найдены."]
  | _ :: _ => say (map book_line result)
  end.

Definition menu : list string :=
  [ (String "010" "--- Система управления библиотекой ---")%string;
    "1. Добавить книгу";
    "2. Удалить книгу";
    "3. Найти книгу";
    "4. Показать все книги";
    "5. Изменить статус книги";
    "6. Выйти" ].

Definition search_menu : list string :=
  [ "Выберите критерий поиска:"; "1. ID"; "2. Название"; "3. Автор"; "4. Год" ].

(** Option 3, from the choice of the criterion on. *)
Definition find_books (search_choice : string) : io bool :=
  if String.eqb search_choice "1" then
    book_id <~ read_int "Введите ID книги: " ;;
    result <~ search [("id", PInt book_id)] ;;
    show result ;;; ret true
  else if String.eqb search_choice "2" then
    title <~ input "Введите название книги: " ;;
    result <~ search [("title", PStr title)] ;;
    show result ;;; ret true
  else if String.eqb search_choice "3" then
    author <~ input "Введите автора книги: " ;;
    result <~ search [("author", PStr author)] ;;
    show result ;;; ret true
  else if String.eqb search_choice "4" then
    year <~ int_input "Введите год издания: " ;;
    result <~ search [("year", PInt year)] ;;
    show result ;;; ret true
  else
    say ["Некорректный выбор."] ;;; ret true.

(** The body of the loop after the choice is read; [true] goes round
    again, [false] is the [break]. *)
Definition dispatch (heap : nat -> Z) (choice : string) : io bool :=
  if String.eqb choice "1" then
    title <~ input "Введите название книги: " ;;
    author <~ input "Введите автора книги: " ;;
    year <~ int_input "Введите год издания: " ;;
    add heap (PStr title) (PStr author) (PInt year) ;;; ret true
  else if String.eqb choice "2" then
    book_id <~ read_int "Введите ID книги для удаления: " ;;
    call (fun o => Call.delete_book o book_id) ;;; ret true
  else if String.eqb choice "3" then
    say search_menu ;;;
    search_choice <~ input "Введите номер критерия: " ;;
    find_books search_choice
  else if String.eqb choice "4" then
    (fun c => say (display_books (lib c)) c) ;;; ret true
  else if String.eqb choice "5" then
    book_id <~ read_int "Введите ID книги: " ;;
    status <~ input "Введите новый статус ('в наличии' или 'выдана'): " ;;
    call (fun o => Call.update_status o book_id status) ;;; ret true
  else if String.eqb choice "6" then
    say ["Выход из программы."] ;;; ret false
  else
    say ["Некорректный выбор. Попробуйте снова."] ;;; ret true.

(** One round of [while True]. *)
Definition turn (heap : nat -> Z) : io bool :=
  say menu ;;;
  choice <~ input "Выберите действие: " ;;
  dispatch heap choice.

(** The loop, for at most [fuel] rounds. *)
Fixpoint main_loop (heap : nat -> Z) (fuel : nat) (c : console)
  : option (ending * console) :=
  match fuel with
  | O => None
  | S fuel' =>
      match turn heap c with
      | Got true c' => main_loop heap fuel' c'
      | Got false c' => Some (Exited, c')
      | Ended e c' => Some (e, c')
      end
  end.

(** [main()], run on the files [disk] with the lines [lines] typed; the
    [i]-th [Book] object of the run is placed at [heap i].  Each round
    reads a line, so one round more than there are lines is enough. *)
Definition main (heap : nat -> Z) (disk : filesystem) (lines : list string)
  : option (ending * console) :=
  match Library.init "library.json" heap disk with
  | Raise e =>
      Some (Uncaught e, Console (Library.mk "library.json" []) disk [] lines 0)
  | Ok w =>
      main_loop heap (S (List.length lines))
                (Console (Library.self w) (Library.disk w) [] lines
                         (List.length (Library.books (Library.self w))))
  end.

End Program.

End Menu.

(** The medium on which every writing completes. *)
#[export] Instance sound_medium : Menu.Medium :=
  {| Menu.write_goes := fun _ => Completes |}.

(** The medium on which [open] refuses every path. *)
Definition locked_medium : Menu.Medium :=
  {| Menu.write_goes := fun _ => Refused |}.

(** An action of the menu that leaves the library and the files alone
    and puts no line back on the input. *)
Definition quiet (c c' : Menu.console) : Prop :=
  Menu.lib c' = Menu.lib c
  /\ Menu.files c' = Menu.files c
  /\ (List.length (Menu.stdin c') <= List.length (Menu.stdin c))%nat.

(** An action that puts no line back on the input and keeps the property
    [P] of the library and the files. *)
Definition tame (P : Library.t -> filesystem -> Prop) (c c' : Menu.console) : Prop :=
  (List.length (Menu.stdin c') <= List.length (Menu.stdin c))%nat
  /\ (P (Menu.lib c) (Menu.files c) -> P (Menu.lib c') (Menu.files c')).

(** The ending is no uncaught exception other than a [ValueError]. *)
Definition value_error_only (e : Menu.ending) : Prop :=
  forall x, e = Menu.Uncaught x -> x = ValueError.

(** However the action ends, the console it leaves is related by [R] to
    the one it started on, and it raises nothing but a [ValueError]. *)
Definition post {A : Type} (R : Menu.console -> Menu.console -> Prop)
    (m : Menu.io A) : Prop :=
  forall c, match m c with
            | Menu.Got _ c' => R c c'
            | Menu.Ended e c' => R c c' /\ value_error_only e
            end.

(** A property of the library and the files that the three methods the
    menu changes the library with all keep. *)
Definition kept_by_methods (P : Library.t -> filesystem -> Prop) : Prop :=
  forall w,
    P (Library.self w) (Library.disk w) ->
    (forall a title author year,
        P (Library.self (Library.add_book a title author year w))
          (Library.disk (Library.add_book a title author year w)))
    /\ (forall book_id,
           P (Library.self (Library.delete_book book_id w))
             (Library.disk (Library.delete_book book_id w)))
    /\ (forall book_id status,
           P (Library.self (Library.update_status book_id status w))
             (Library.disk (Library.update_status book_id status w))).

(** Either the files are still those [main] found, or the backing file
    holds the collection that is in memory. *)
Definition untouched_or_synced (disk0 : filesystem) (self : Library.t)
    (disk : filesystem) : Prop :=
  disk = disk0 \/ synced self disk.

Section Endings.

Context {md : Menu.Medium}.

(** The ending is the exception of a writing that did not complete. *)
Definition write_failed (e : Menu.ending) : Prop :=
  exists x c, e = Menu.Uncaught x /\ error_of (Menu.write_goes c) = Some x.

(** However the action ends, it puts no line back on the input and it
    keeps the property [Q] of the library.  The property [P] of the
    library and the files it keeps unless a writing failed, and it raises
    nothing but a [ValueError] or the exception of the writing that
    failed. *)
Definition held {A : Type} (P : Library.t -> filesystem -> Prop)
    (Q : Library.t -> Prop) (m : Menu.io A) : Prop :=
  forall c,
    match m c with
    | Menu.Got _ c' => tame P c c' /\ (Q (Menu.lib c) -> Q (Menu.lib c'))
    | Menu.Ended e c' =>
        (Q (Menu.lib c) -> Q (Menu.lib c'))
        /\ ((tame P c c' /\ value_error_only e) \/ write_failed e)
    end.

End Endings.

Section Numbers.

Context {rt : Runtime}.

(** The lines that [int] does not take for a number. *)
Definition not_a_number (line : string) : Prop :=
  Py.int_of_string line = Raise ValueError.

End Numbers.

(** A sample session: add a book, list the books, leave. *)
Definition session : list string :=
  ["1"; "Dune"; "Herbert"; "1965"; "4"; "6"].

(** * Properties *)

(** ** Generic facts on lists and on the comprehensions *)

Section Part1.

Context {rt : Runtime} {attrs : Book.Attributes} {md : Menu.Medium}.

Lemma filter_filter {A : Type} (f g : A -> bool) (l : list A) :
  filter g (filter f l) = filter (fun x => f x && g x) l.
Proof.
  induction l as [| x l IH]; simpl; [reflexivity |].
  destruct (f x); simpl; [destruct (g x) |]; now rewrite IH.
Qed.

Lemma filter_const {A : Type} (c : bool) (l : list A) :
  filter (fun _ => c) l = if c then l else [].
Proof.
  induction l as [| x l IH]; simpl; destruct c; try reflexivity.
  - simpl in IH. now rewrite IH.
  - exact IH.
Qed.

Lemma forallb_perm {A : Type} (f : A -> bool) (l l' : list A) :
  Permutation l l' -> forallb f l = forallb f l'.
Proof.
  induction 1 as [| x l l' _ IH | x y l | l l' l'' _ IH1 _ IH2]; simpl.
  - reflexivity.
  - now rewrite IH.
  - destruct (f x), (f y); reflexivity.
  - now rewrite IH1.
Qed.

Lemma filterM_pure {A : Type} (p : A -> py_result bool) (f : A -> bool) (l : list A) :
  (forall x, In x l -> p x = Ok (f x)) -> filterM p l = Ok (filter f l).
Proof.
  induction l as [| x l IH]; intros H; simpl; [reflexivity |].
  rewrite (H x (or_introl eq_refl)), IH by (intros; apply H; now right).
  simpl. reflexivity.
Qed.

Lemma filterM_raise {A : Type} (p : A -> py_result bool) (e : exn) (x : A) (l : list A) :
  p x = Raise e -> filterM p (x :: l) = Raise e.
Proof. intros H. simpl. now rewrite H. Qed.

End Part1.

(** ** Searching *)

Section Part2.

Context {rt : Runtime} {attrs : Book.Attributes} {md : Menu.Medium}.

Section Search.

Import Library.

Lemma search_step_ok (key : string) (value : pyval) (l : list Book.t) :
  convertible (key, value) = true ->
  search_step key value l = Ok (filter (fun b => matches b (key, value)) l).
Proof.
  unfold convertible, search_step, matches; simpl.
  destruct (String.eqb key "id"); simpl; intros H; [| reflexivity].
  destruct (Py.int value) as [n | e]; [| discriminate].
  now apply filterM_pure.
Qed.

Lemma search_loop_ok (criteria : list (string * pyval)) (l : list Book.t) :
  forallb convertible criteria = true ->
  search_loop criteria l
  = Ok (filter (fun b => forallb (matches b) criteria) l).
Proof.
  revert l.
  induction criteria as [| [key value] criteria IH]; intros l H; simpl.
  - now rewrite filter_const.
  - simpl in H. apply andb_true_iff in H as [Hc Hr].
    rewrite search_step_ok by assumption. simpl.
    rewrite IH by assumption. now rewrite filter_filter.
Qed.

Lemma search_loop_nil (criteria : list (string * pyval)) :
  search_loop criteria [] = Ok [].
Proof.
  induction criteria as [| [key value] criteria IH]; simpl; [reflexivity |].
  unfold search_step. destruct (String.eqb key "id"); simpl; exact IH.
Qed.

Lemma getattr_unknown (book : Book.t) (key : string) (default : pyval) :
  ~ In key Book.fields -> Book.on_class key = false ->
  Book.getattr book key default = Book.Bound default.
Proof.
  intros H Hc. unfold Book.getattr.
  repeat match goal with
  | |- context [String.eqb key ?k] =>
      destruct (String.eqb_spec key k) as [-> | _];
      [exfalso; apply H; simpl; tauto |]
  end.
  now rewrite Hc.
Qed.

End Search.

Lemma search_loop_app (cs1 cs2 : list (string * pyval)) (l : list Book.t) :
  Library.search_loop (cs1 ++ cs2) l
  = (r <- Library.search_loop cs1 l ;; Library.search_loop cs2 r).
Proof.
  revert l. induction cs1 as [| [key value] cs1 IH]; intros l; simpl.
  - reflexivity.
  - destruct (Library.search_step key value l) as [r | e]; simpl;
      [apply IH | reflexivity].
Qed.

Lemma not_a_field (key : string) :
  ~ In key Book.fields -> String.eqb key "id" = false.
Proof.
  intros H. destruct (String.eqb_spec key "id") as [-> | _]; [| reflexivity].
  exfalso. apply H. simpl. tauto.
Qed.

(** Only the empty text equals the empty text up to case. *)
Lemma ci_equal_empty (t : string) : ci_equal "" t = String.eqb t "".
Proof.
  unfold ci_equal, Py.lower. rewrite (lower_plain "" eq_refl). simpl.
  destruct (String.eqb_spec t "") as [-> | Ht].
  - now rewrite (lower_plain "" eq_refl).
  - destruct (str_lower t) eqn:Hl; [| reflexivity].
    now elim Ht; apply lower_empty.
Qed.

Lemma matches_unknown (b : Book.t) (key : string) (value : pyval) :
  ~ In key Book.fields -> Book.on_class key = false ->
  matches b (key, value) = String.eqb (Py.str value) "".
Proof.
  intros H Hc. unfold matches. cbn [fst snd].
  rewrite (not_a_field key H), getattr_unknown by assumption.
  apply ci_equal_empty.
Qed.

(** *** Criteria that the call binds *)

Lemma search_books_binds (criteria : list (string * pyval)) (w : Library.world) :
  binds criteria = true ->
  Library.search_books criteria w
  = Library.search_loop criteria (Library.books (Library.self w)).
Proof.
  unfold binds, Library.search_books. intros H.
  now destruct (existsb (String.eqb "self") (map fst criteria)).
Qed.

Lemma search_books_self (criteria : list (string * pyval)) (w : Library.world) :
  binds criteria = false -> Library.search_books criteria w = Raise TypeError.
Proof.
  unfold binds, Library.search_books. intros H.
  now destruct (existsb (String.eqb "self") (map fst criteria)).
Qed.

Lemma binds_In (criteria : list (string * pyval)) :
  binds criteria = true <-> ~ In "self" (map fst criteria).
Proof.
  unfold binds. rewrite negb_true_iff. split.
  - intros H Hin.
    assert (Hex : existsb (String.eqb "self") (map fst criteria) = true)
      by (apply existsb_exists; exists "self"; split;
          [exact Hin | apply String.eqb_refl]).
    now rewrite H in Hex.
  - intros Hnot. destruct (existsb _ _) eqn:Hex; [| reflexivity].
    apply existsb_exists in Hex as (k & Hk & Heq).
    apply String.eqb_eq in Heq. subst k. contradiction.
Qed.

Lemma binds_fields (criteria : list (string * pyval)) :
  Forall (fun c => In (fst c) Book.fields) criteria -> binds criteria = true.
Proof.
  intros H. apply binds_In. intros Hin.
  apply in_map_iff in Hin as (c & Hc & Hin).
  rewrite Forall_forall in H. specialize (H c Hin). rewrite Hc in H.
  simpl in H. repeat (destruct H as [H | H]; [discriminate H |]). exact H.
Qed.

Lemma binds_perm (criteria criteria' : list (string * pyval)) :
  Permutation criteria criteria' -> binds criteria = binds criteria'.
Proof.
  intros Hperm.
  destruct (binds criteria') eqn:H'.
  - apply binds_In. apply binds_In in H'. intros Hin. apply H'.
    exact (Permutation_in _ (Permutation_map fst Hperm) Hin).
  - destruct (binds criteria) eqn:H; [| reflexivity].
    apply binds_In in H. exfalso. apply H.
    assert (Hin : In "self" (map fst criteria')).
    { destruct (in_dec string_dec "self" (map fst criteria')) as [Hin | Hnot];
        [exact Hin |].
      apply binds_In in Hnot. now rewrite Hnot in H'. }
    exact (Permutation_in _ (Permutation_sym (Permutation_map fst Hperm)) Hin).
Qed.

Lemma binds_app (cs1 cs2 : list (string * pyval)) :
  binds (cs1 ++ cs2) = binds cs1 && binds cs2.
Proof.
  unfold binds. rewrite map_app, existsb_app. apply negb_orb.
Qed.

(** *** Plain text in any runtime *)

Lemma lower_of_plain (s : string) :
  Plain.plain s = true -> Py.lower s = Plain.lower s.
Proof. apply lower_plain. Qed.

Lemma int_of_ascii (s : string) :
  Plain.ascii s = true -> (String.length s <= 4300)%nat ->
  Py.int (PStr s) = Plain.int_of_string s.
Proof. apply int_ascii. Qed.

Lemma int_of_string_raises (s : string) (e : exn) :
  Py.int_of_string s = Raise e -> e = ValueError.
Proof. apply int_raises. Qed.

Lemma py_int_raises (v : pyval) (e : exn) :
  Py.int v = Raise e -> e = TypeError \/ e = ValueError.
Proof.
  destruct v; simpl; try discriminate; try (intros [= <-]; now left).
  intros H. right. exact (int_of_string_raises _ _ H).
Qed.

(** C1, amended.  For criteria over the five fields whose [id] value (if
    there is one) converts to an integer, [search_books] returns the books
    of the collection, in collection order, that satisfy every criterion:
    the identifier by integer equality, any other field by text equality
    ignoring case.  The result does not depend on the order of the
    criteria, it is the empty list and no error when no book matches, and
    the criterion author = HERBERT is satisfied by a book whose author is
    Herbert. *)
Theorem search_books_filters (w : Library.world) (criteria : list (string * pyval)) :
  Forall (fun c => In (fst c) Book.fields) criteria ->
  forallb convertible criteria = true ->
  Library.search_books criteria w
  = Ok (filter (fun b => forallb (matches b) criteria)
               (Library.books (Library.self w)))
  /\ (forall criteria',
         Permutation criteria criteria' ->
         Library.search_books criteria' w = Library.search_books criteria w)
  /\ ((forall b, In b (Library.books (Library.self w)) ->
                 forallb (matches b) criteria = false) ->
      Library.search_books criteria w = Ok [])
  /\ (forall b, Book.author b = PStr "Herbert" ->
                matches b ("author", PStr "HERBERT") = true).
Proof.
  intros Hfields Hconv.
  pose proof (binds_fields criteria Hfields) as Hbinds.
  rewrite (search_books_binds criteria w Hbinds).
  rewrite (search_loop_ok criteria _ Hconv).
  repeat split.
  - intros criteria' Hperm.
    rewrite search_books_binds by (now rewrite <- (binds_perm _ _ Hperm)).
    rewrite search_loop_ok by (now rewrite <- (forallb_perm _ _ _ Hperm)).
    f_equal. apply filter_ext. intros b. symmetry. now apply forallb_perm.
  - intros Hnone. f_equal.
    induction (Library.books (Library.self w)) as [| b l IH]; simpl; [reflexivity |].
    rewrite (Hnone b (or_introl eq_refl)).
    apply IH. intros b' Hb'. apply Hnone. now right.
  - intros b Hb. unfold matches, Book.getattr, ci_equal. cbn [fst snd].
    change (String.eqb "author" "id") with false.
    change (String.eqb "author" "title") with false.
    change (String.eqb "author" "author") with true.
    cbv iota. rewrite Hb. simpl.
    rewrite !lower_of_plain by reflexivity. reflexivity.
Qed.

End Part2.

Lemma search_books_filters_witness :
  Library.search_books [("author", PStr "HERBERT"); ("id", PStr "7")]
                       (shelf [emma; dune])
  = Ok [dune]
  /\ Library.search_books [("id", PStr "7"); ("author", PStr "HERBERT")]
                          (shelf [emma; dune])
     = Library.search_books [("author", PStr "HERBERT"); ("id", PStr "7")]
                            (shelf [emma; dune])
  /\ Library.search_books [("year", PInt 1984)] (shelf [emma; dune]) = Ok []
  /\ matches dune ("author", PStr "HERBERT") = true.
Proof.
  assert (Hfields : forall key value key' value',
             In key Book.fields -> In key' Book.fields ->
             Forall (fun c : string * pyval => In (fst c) Book.fields)
                    [(key, value); (key', value')])
    by (intros; apply Forall_cons; [| apply Forall_cons; [| apply Forall_nil]];
        assumption).
  split; [| split; [| split]].
  - refine (proj1 (search_books_filters (shelf [emma; dune])
                     [("author", PStr "HERBERT"); ("id", PStr "7")] _ _)).
    + apply Hfields; simpl; tauto.
    + reflexivity.
  - refine (proj1 (proj2 (search_books_filters (shelf [emma; dune])
                            [("author", PStr "HERBERT"); ("id", PStr "7")] _ _))
              [("id", PStr "7"); ("author", PStr "HERBERT")] _).
    + apply Hfields; simpl; tauto.
    + reflexivity.
    + apply perm_swap.
  - refine (proj1 (proj2 (proj2 (search_books_filters (shelf [emma; dune])
                                   [("year", PInt 1984)] _ _))) _).
    + apply Forall_cons; [simpl; tauto | apply Forall_nil].
    + reflexivity.
    + intros b [<- | [<- | []]]; reflexivity.
  - refine (proj2 (proj2 (proj2 (search_books_filters (shelf [])
                                   [("author", PStr "HERBERT")] _ _))) dune _).
    + apply Forall_cons; [simpl; tauto | apply Forall_nil].
    + reflexivity.
    + reflexivity.
Defined.

Section Part3.

Context {rt : Runtime} {attrs : Book.Attributes} {md : Menu.Medium}.

(** In whatever runtime, the order of the criteria decides between the
    empty list and the error when the [id] value is no number. *)
Lemma order_matters_in_any_runtime :
  Library.search_books [("title", PStr "zzz"); ("id", PStr "abc")] (shelf [dune])
  = Ok []
  /\ Library.search_books [("id", PStr "abc"); ("title", PStr "zzz")] (shelf [dune])
     = Raise ValueError.
Proof.
  unfold Library.search_books, Library.search_loop, Library.search_step, ci_equal.
  cbn -[Py.lower Py.int].
  rewrite !lower_of_plain by reflexivity.
  rewrite (int_of_ascii "abc") by (simpl; try reflexivity; lia).
  split; reflexivity.
Qed.

End Part3.

(** C1 as the spec words it fails: with an [id] value that [int] rejects,
    the outcome depends on the order of the criteria.  After a title
    criterion that no book meets the value is never converted and the
    search returns the empty list; with the [id] criterion first the
    conversion raises. *)
Lemma search_books_order_matters :
  Permutation [("title", PStr "zzz"); ("id", PStr "abc")]
              [("id", PStr "abc"); ("title", PStr "zzz")]
  /\ Library.search_books [("title", PStr "zzz"); ("id", PStr "abc")] (shelf [dune])
     = Ok []
  /\ Library.search_books [("id", PStr "abc"); ("title", PStr "zzz")] (shelf [dune])
     = Raise ValueError.
Proof.
  split; [apply perm_swap | exact order_matters_in_any_runtime].
Qed.

Section Part4.

Context {rt : Runtime} {attrs : Book.Attributes} {md : Menu.Medium}.

(** C3, amended.  A criterion whose key names no attribute of a book, and
    is not [self], never makes [search_books] fail: the missing attribute
    reads as the empty text.  Among other criteria, it lets through every
    book the others let through when the text of its value is empty, and
    no book otherwise; alone, it returns the whole collection or
    nothing. *)
Theorem search_books_unknown_key (w : Library.world) (key : string) (value : pyval)
    (before after : list (string * pyval)) :
  ~ In key Book.fields ->
  Book.on_class key = false ->
  key <> "self" ->
  binds (before ++ after) = true ->
  forallb convertible (before ++ after) = true ->
  Library.search_books (before ++ (key, value) :: after) w
  = Ok (if String.eqb (Py.str value) ""
        then filter (fun b => forallb (matches b) (before ++ after))
                    (Library.books (Library.self w))
        else [])
  /\ Library.search_books [(key, value)] w
     = Ok (if String.eqb (Py.str value) ""
           then Library.books (Library.self w) else []).
Proof.
  intros Hkey Hclass Hself Hbinds Hconv.
  assert (Hc : convertible (key, value) = true)
    by (unfold convertible; simpl; now rewrite (not_a_field key Hkey)).
  assert (Hk : binds [(key, value)] = true).
  { apply binds_In. simpl. intros [H | []]. now apply Hself. }
  rewrite binds_app in Hbinds. apply andb_true_iff in Hbinds as [Hb1 Hb2].
  split.
  - rewrite search_books_binds
      by (rewrite binds_app, Hb1; change ((key, value) :: after)
            with ([(key, value)] ++ after); now rewrite binds_app, Hk, Hb2).
    rewrite search_loop_ok.
    + f_equal. rewrite <- filter_const, filter_filter.
      apply filter_ext. intros b.
      rewrite !forallb_app. simpl.
      rewrite (matches_unknown b key value Hkey Hclass).
      destruct (forallb (matches b) before), (forallb (matches b) after),
        (String.eqb (Py.str value) ""); reflexivity.
    + rewrite forallb_app in Hconv |- *. simpl. rewrite Hc. exact Hconv.
  - rewrite search_books_binds by exact Hk.
    rewrite search_loop_ok by (simpl; now rewrite Hc).
    f_equal. rewrite <- filter_const. apply filter_ext. intros b. simpl.
    rewrite (matches_unknown b key value Hkey Hclass). apply andb_true_r.
Qed.

End Part4.

Lemma search_books_unknown_key_witness :
  Library.search_books [("author", PStr "austen"); ("publisher", PStr "")]
                       (shelf [dune; emma])
  = Ok [emma]
  /\ Library.search_books [("publisher", PStr "Ace")] (shelf [dune; emma]) = Ok [].
Proof.
  assert (Hkey : ~ In "publisher" Book.fields).
  { simpl. intros H. repeat (destruct H as [H | H]; [discriminate H |]). exact H. }
  split.
  - refine (proj1 (search_books_unknown_key (shelf [dune; emma]) "publisher" (PStr "")
                     [("author", PStr "austen")] [] Hkey _ _ _ _));
      try reflexivity; discriminate.
  - refine (proj2 (search_books_unknown_key (shelf [dune; emma]) "publisher" (PStr "Ace")
                     [] [] Hkey _ _ _ _));
      try reflexivity; discriminate.
Defined.

Section Part5.

Context {rt : Runtime} {attrs : Book.Attributes} {md : Menu.Medium}.

(** In whatever runtime, and whatever the class holds, a search on the
    key [publisher] with an empty value returns every book. *)
Lemma unknown_key_in_any_runtime :
  Library.search_books [("publisher", PStr "")] (shelf [dune; emma])
  = Ok [dune; emma].
Proof.
  assert (Hclass : Book.on_class "publisher" = false).
  { destruct (Book.on_class "publisher") eqn:H; [| reflexivity].
    apply Book.on_class_name in H. discriminate H. }
  unfold Library.search_books, Library.search_loop, Library.search_step,
    Book.getattr.
  cbn -[Py.lower]. rewrite Hclass. cbn -[Py.lower].
  now rewrite !String.eqb_refl.
Qed.

End Part5.

(** C3 as the spec words it fails: a search on a field that books do not
    have raises nothing, and with an empty value it returns every book. *)
Lemma search_books_unknown_key_matches :
  ~ In "publisher" Book.fields
  /\ Library.search_books [("publisher", PStr "")] (shelf [dune; emma])
     = Ok [dune; emma].
Proof.
  split; [| exact unknown_key_in_any_runtime].
  simpl. intros H. repeat (destruct H as [H | H]; [discriminate H |]). exact H.
Qed.

Section Part6.

Context {rt : Runtime} {attrs : Book.Attributes} {md : Menu.Medium}.

(** C10, amended.  Let the [id] criterion come after the criteria
    [before], none of the criteria being keyed [self].  A value that [int]
    rejects makes the search raise the conversion error exactly when some
    book satisfies all of [before], in particular when the criterion comes
    first and the collection is not empty; when no book does, in
    particular on an empty collection, the value is never converted and
    the search returns the empty list.  A value that [int] accepts is
    compared as the integer it converts to, so the text 7 finds the book
    whose identifier is the integer 7. *)
Theorem search_books_id_conversion (w : Library.world) (value : pyval)
    (before after : list (string * pyval)) :
  binds (before ++ after) = true ->
  (forall e,
      forallb convertible before = true ->
      Py.int value = Raise e ->
      let reached := filter (fun b => forallb (matches b) before)
                            (Library.books (Library.self w)) in
      (reached <> [] ->
       Library.search_books (before ++ ("id", value) :: after) w = Raise e)
      /\ (reached = [] ->
          Library.search_books (before ++ ("id", value) :: after) w = Ok []))
  /\ (Library.books (Library.self w) = [] ->
      Library.search_books (("id", value) :: after) w = Ok [])
  /\ (forall n, Py.int value = Ok n ->
                Library.search_books [("id", value)] w
                = Ok (filter (fun b => Py.eq_int (Book.id b) n)
                             (Library.books (Library.self w))))
  /\ (forall b, In b (Library.books (Library.self w)) ->
                Book.id b = PInt 7 ->
                exists r, Library.search_books [("id", PStr "7")] w = Ok r /\ In b r).
Proof.
  intros Hbinds.
  rewrite binds_app in Hbinds. apply andb_true_iff in Hbinds as [Hb1 Hb2].
  assert (Hid : forall v cs, binds cs = true -> binds (("id", v) :: cs) = true).
  { intros v cs Hcs. change (("id", v) :: cs) with ([("id", v)] ++ cs).
    rewrite binds_app, Hcs. reflexivity. }
  assert (Hconv : forall v n, Py.int v = Ok n ->
            Library.search_books [("id", v)] w
            = Ok (filter (fun b => Py.eq_int (Book.id b) n)
                         (Library.books (Library.self w)))).
  { intros v n Hn. rewrite search_books_binds by reflexivity.
    simpl. unfold Library.search_step. simpl.
    rewrite (filterM_pure _ (fun b => Py.eq_int (Book.id b) n)); [reflexivity |].
    intros x _. now rewrite Hn. }
  split; [| split; [| split]].
  - intros e Hbefore He.
    rewrite search_books_binds by (rewrite binds_app, Hb1; now apply Hid).
    rewrite search_loop_app, (search_loop_ok before _ Hbefore).
    cbn [bind Library.search_loop]. unfold Library.search_step. simpl.
    destruct (filter (fun b => forallb (matches b) before)
                     (Library.books (Library.self w))) as [| b l].
    + split; [intros H; now elim H | intros _; apply search_loop_nil].
    + split; [intros _ | discriminate].
      now rewrite (filterM_raise _ e b l) by (now rewrite He).
  - intros Hempty. rewrite search_books_binds by (now apply Hid).
    rewrite Hempty. apply search_loop_nil.
  - exact (Hconv value).
  - intros b Hin Hid7. eexists. split.
    + apply (Hconv (PStr "7") 7).
      rewrite int_of_ascii by (simpl; try reflexivity; lia). reflexivity.
    + apply filter_In. split; [exact Hin |]. now rewrite Hid7.
Qed.

End Part6.

Lemma search_books_id_conversion_witness :
  Library.search_books [("author", PStr "herbert"); ("id", PStr "seven")]
                       (shelf [emma; dune])
  = Raise ValueError
  /\ Library.search_books [("author", PStr "orwell"); ("id", PStr "seven")]
                          (shelf [emma; dune])
     = Ok []
  /\ Library.search_books [("id", PStr "seven")] (shelf []) = Ok []
  /\ Library.search_books [("id", PStr "7")] (shelf [emma; dune]) = Ok [dune]
  /\ (exists r, Library.search_books [("id", PStr "7")] (shelf [emma; dune]) = Ok r
                /\ In dune r).
Proof.
  pose proof (fun w value before (Hb : binds (before ++ []) = true) =>
                search_books_id_conversion (rt := plain_runtime)
                  (attrs := plain_attributes) w value before [] Hb) as H.
  split; [| split; [| split; [| split]]].
  - apply (proj1 (H (shelf [emma; dune]) (PStr "seven")
                    [("author", PStr "herbert")] eq_refl)
             ValueError eq_refl eq_refl).
    discriminate.
  - apply (proj1 (H (shelf [emma; dune]) (PStr "seven")
                    [("author", PStr "orwell")] eq_refl)
             ValueError eq_refl eq_refl).
    reflexivity.
  - apply (proj1 (proj2 (H (shelf []) (PStr "seven") [] eq_refl))).
    reflexivity.
  - apply (proj1 (proj2 (proj2 (H (shelf [emma; dune]) (PStr "7") [] eq_refl))) 7).
    reflexivity.
  - apply (proj2 (proj2 (proj2 (H (shelf [emma; dune]) (PStr "7") [] eq_refl)))
             dune).
    + simpl. tauto.
    + reflexivity.
Defined.

Section Part7.

Context {rt : Runtime} {attrs : Book.Attributes} {md : Menu.Medium}.

(** In whatever runtime, [abc] is no number, and the search by it on the
    empty collection returns the empty list. *)
Lemma bad_id_in_any_runtime :
  Py.int (PStr "abc") = Raise ValueError
  /\ Library.search_books [("id", PStr "abc")] (shelf []) = Ok [].
Proof.
  split; [| reflexivity].
  rewrite int_of_ascii by (simpl; try reflexivity; lia). reflexivity.
Qed.

End Part7.

(** C10 as the spec words it fails: on the empty collection a search by an
    [id] that is no number returns the empty list instead of failing. *)
Lemma search_books_bad_id_empty_store :
  Py.int (PStr "abc") = Raise ValueError
  /\ Library.search_books [("id", PStr "abc")] (shelf []) = Ok [].
Proof. exact bad_id_in_any_runtime. Qed.

(** ** Records and the backing file *)

Section Part8.

Context {rt : Runtime} {attrs : Book.Attributes} {md : Menu.Medium}.

Lemma from_dict_found (self : Z) (d : list (string * pyval)) (i t a y s : pyval) :
  Py.lookup "id" d = Some i ->
  Py.lookup "title" d = Some t ->
  Py.lookup "author" d = Some a ->
  Py.lookup "year" d = Some y ->
  Py.lookup "status" d = Some s ->
  Book.from_dict self (PDict d) = Ok (Book.mk self i t a y s).
Proof.
  intros Hi Ht Ha Hy Hs. unfold Book.from_dict, Py.getitem.
  rewrite Ht, Ha, Hy. simpl. rewrite Hi. simpl. rewrite Hs. reflexivity.
Qed.

Lemma from_dict_missing (self : Z) (d : list (string * pyval)) :
  has_fields (PDict d) = false ->
  exists key, In key Book.fields /\ Py.lookup key d = None
              /\ Book.from_dict self (PDict d) = Raise (KeyError key).
Proof.
  unfold has_fields, Book.from_dict, Py.getitem, Book.fields. simpl.
  destruct (Py.lookup "title" d) eqn:Ht;
    [| intros _; exists "title"; simpl; tauto].
  destruct (Py.lookup "author" d) eqn:Ha;
    [| intros _; exists "author"; simpl; tauto].
  destruct (Py.lookup "year" d) eqn:Hy;
    [| intros _; exists "year"; simpl; tauto].
  destruct (Py.lookup "id" d) eqn:Hi;
    [| intros _; exists "id"; simpl; tauto].
  destruct (Py.lookup "status" d) eqn:Hs;
    [| intros _; exists "status"; simpl; tauto].
  discriminate.
Qed.

Lemma from_dict_ok (self : Z) (data : pyval) :
  has_fields data = true ->
  exists book, Book.from_dict self data = Ok book /\ Book.addr book = self.
Proof.
  destruct data as [| | | | | d]; try discriminate.
  unfold has_fields, Book.fields. simpl.
  destruct (Py.lookup "id" d) as [i |] eqn:Hi; [| discriminate].
  destruct (Py.lookup "title" d) as [t |] eqn:Ht; [| discriminate].
  destruct (Py.lookup "author" d) as [a |] eqn:Ha; [| discriminate].
  destruct (Py.lookup "year" d) as [y |] eqn:Hy; [| discriminate].
  destruct (Py.lookup "status" d) as [s |] eqn:Hs; [| discriminate].
  intros _. exists (Book.mk self i t a y s).
  split; [now apply from_dict_found | reflexivity].
Qed.

Lemma from_dict_is_ok (self : Z) (data : pyval) :
  is_ok (Book.from_dict self data) = has_fields data.
Proof.
  destruct (has_fields data) eqn:H.
  - destruct (from_dict_ok self data H) as (b & -> & _). reflexivity.
  - destruct data as [| | | | | d]; try reflexivity.
    destruct (from_dict_missing self d H) as (key & _ & _ & ->). reflexivity.
Qed.

(** C7, amended.  [from_dict] checks no shapes.  Given a mapping that has
    the five keys it returns a record holding the five values as they are,
    identifier and status included, of whatever type they are; it fails
    with a [KeyError] on a key of the five that is missing, and with a
    [TypeError] when its argument is not a mapping. *)
Theorem from_dict_verbatim (self : Z) :
  (forall d i t a y s,
      Py.lookup "id" d = Some i ->
      Py.lookup "title" d = Some t ->
      Py.lookup "author" d = Some a ->
      Py.lookup "year" d = Some y ->
      Py.lookup "status" d = Some s ->
      Book.from_dict self (PDict d) = Ok (Book.mk self i t a y s))
  /\ (forall d,
         has_fields (PDict d) = false ->
         exists key, In key Book.fields /\ Py.lookup key d = None
                     /\ Book.from_dict self (PDict d) = Raise (KeyError key))
  /\ (forall data,
         (forall d, data <> PDict d) ->
         Book.from_dict self data = Raise TypeError)
  /\ (forall data, is_ok (Book.from_dict self data) = has_fields data).
Proof.
  split; [| split; [| split]].
  - apply from_dict_found.
  - apply from_dict_missing.
  - intros data Hd. destruct data; try reflexivity. now elim (Hd d).
  - apply from_dict_is_ok.
Qed.

End Part8.

Lemma from_dict_verbatim_witness :
  Book.from_dict 5 (Book.to_dict dune)
  = Ok (Book.mk 5 (PInt 7) (PStr "Dune") (PStr "Herbert") (PInt 1965) (PStr "в наличии"))
  /\ (exists key,
         In key Book.fields /\ Py.lookup key [("id", PInt 7); ("title", PStr "Dune")] = None
         /\ Book.from_dict 5 (PDict [("id", PInt 7); ("title", PStr "Dune")])
            = Raise (KeyError key))
  /\ Book.from_dict 5 (PList []) = Raise TypeError.
Proof.
  split; [| split].
  - apply (proj1 (from_dict_verbatim 5)); reflexivity.
  - apply (proj1 (proj2 (from_dict_verbatim 5))). reflexivity.
  - apply (proj1 (proj2 (proj2 (from_dict_verbatim 5)))). discriminate.
Defined.

(** C7 as the spec words it fails: a year that is a text, an identifier
    that is [None] and a status that is a number are taken as they are;
    nothing is raised. *)
Lemma from_dict_takes_any_shape :
  Book.from_dict 5 (PDict [("id", PNone); ("title", PStr "Dune");
                           ("author", PStr "Herbert"); ("year", PStr "MCMLXV");
                           ("status", PInt 0)])
  = Ok (Book.mk 5 PNone (PStr "Dune") (PStr "Herbert") (PStr "MCMLXV") (PInt 0)).
Proof. reflexivity. Qed.

Section Part9.

Context {rt : Runtime} {attrs : Book.Attributes} {md : Menu.Medium}.

Lemma mapiM_from_dict (alloc : nat -> Z) (items : list pyval) (n : nat) :
  Forall (fun item => has_fields item = true) items ->
  exists bs,
    mapiM (fun i book => Book.from_dict (alloc i) book) n items = Ok bs
    /\ List.length bs = List.length items
    /\ map Book.addr bs = map alloc (seq n (List.length items)).
Proof.
  intros H. revert n.
  induction H as [| item items Hitem _ IH]; intros n; simpl.
  - exists []. repeat split.
  - destruct (from_dict_ok (alloc n) item Hitem) as (b & -> & Hb).
    destruct (IH (S n)) as (bs & -> & Hlen & Haddr).
    exists (b :: bs). simpl. now rewrite Hlen, Hb, Haddr.
Qed.

Lemma mapiM_is_ok (alloc : nat -> Z) (items : list pyval) (n : nat) :
  is_ok (mapiM (fun i book => Book.from_dict (alloc i) book) n items)
  = forallb has_fields items.
Proof.
  revert n. induction items as [| item items IH]; intros n; simpl; [reflexivity |].
  rewrite <- (from_dict_is_ok (alloc n) item), <- (IH (S n)).
  destruct (Book.from_dict (alloc n) item); simpl; [| reflexivity].
  now destruct (mapiM _ (S n) items).
Qed.

Lemma from_dict_raise (self : Z) (data : pyval) (e : exn) :
  Book.from_dict self data = Raise e ->
  e = TypeError \/ exists key, In key Book.fields /\ e = KeyError key.
Proof.
  intros He. destruct (has_fields data) eqn:Hf.
  - destruct (from_dict_ok self data Hf) as (b & Hb & _). congruence.
  - destruct data as [| | | | | d];
      try (left; unfold Book.from_dict in He; simpl in He; congruence).
    destruct (from_dict_missing self d Hf) as (key & Hkey & _ & Hraise).
    right. exists key. split; [exact Hkey | congruence].
Qed.

Lemma mapiM_raise (alloc : nat -> Z) (items : list pyval) (n : nat) (e : exn) :
  mapiM (fun i book => Book.from_dict (alloc i) book) n items = Raise e ->
  exists good bad rest,
    items = good ++ bad :: rest
    /\ forallb has_fields good = true
    /\ Book.from_dict (alloc (n + List.length good)%nat) bad = Raise e.
Proof.
  revert n. induction items as [| item items IH]; intros n; simpl; [discriminate |].
  destruct (Book.from_dict (alloc n) item) as [b | e'] eqn:Hb; simpl.
  - destruct (mapiM (fun i book => Book.from_dict (alloc i) book) (S n) items)
      as [bs | e''] eqn:Hbs; simpl; [discriminate |].
    intros [= ->]. destruct (IH (S n) Hbs) as (good & bad & rest & -> & Hgood & Hbad).
    exists (item :: good), bad, rest. simpl.
    rewrite <- (from_dict_is_ok (alloc n) item), Hb, Hgood.
    repeat split. now rewrite Nat.add_succ_r.
  - intros [= ->]. exists [], item, items. simpl.
    now rewrite Nat.add_0_r.
Qed.

(** C6, amended.  [Library(path)] gives the empty collection when there is
    no file at [path].  It fails with the error of the step that failed,
    which nothing catches, when the file cannot be opened for another
    reason ([OSError]), when it is not text in UTF-8
    ([UnicodeDecodeError]), when the text is not JSON ([JSONDecodeError])
    and when [json.load] raises on it for another reason.  A JSON
    document is not checked against the format: whenever iterating it
    yields only mappings that have the five keys, one record is made of
    each, and the construction fails otherwise, with the [TypeError] of a
    document that cannot be iterated or of an item that is no mapping, or
    the [KeyError] of the first key missing in the first item that lacks
    one; so a document that is not an array may load too, and an empty
    object or an empty text gives the empty collection. *)
Theorem init_outcomes (path : string) (alloc : nat -> Z) (disk : filesystem) :
  (disk path = NoFile ->
   Library.init path alloc disk = Ok (Library.World (Library.mk path []) disk []))
  /\ (disk path = NoAccess -> Library.init path alloc disk = Raise OSError)
  /\ (disk path = NotText -> Library.init path alloc disk = Raise UnicodeDecodeError)
  /\ (disk path = NotJSON -> Library.init path alloc disk = Raise JSONDecodeError)
  /\ (forall e, disk path = Unloadable e -> Library.init path alloc disk = Raise e)
  /\ (forall data items,
         disk path = Document data ->
         Py.iter data = Ok items ->
         Forall (fun item => has_fields item = true) items ->
         exists bs,
           Library.init path alloc disk
           = Ok (Library.World (Library.mk path bs) disk [])
           /\ List.length bs = List.length items)
  /\ (forall data,
         disk path = Document data ->
         is_ok (Library.init path alloc disk)
         = match Py.iter data with
           | Ok items => forallb has_fields items
           | Raise _ => false
           end)
  /\ (forall data e,
         disk path = Document data ->
         Library.init path alloc disk = Raise e ->
         (e = TypeError \/ exists key, In key Book.fields /\ e = KeyError key)
         /\ (Py.iter data = Raise e
             \/ exists good bad rest,
                  Py.iter data = Ok (good ++ bad :: rest)
                  /\ forallb has_fields good = true
                  /\ Book.from_dict (alloc (List.length good)) bad = Raise e))
  /\ (disk path = Document (PDict []) \/ disk path = Document (PStr "") ->
      Library.init path alloc disk = Ok (Library.World (Library.mk path []) disk [])).
Proof.
  unfold Library.init, Library.load_books. simpl.
  split; [| split; [| split; [| split; [| split; [| split; [| split; [| split]]]]]]].
  - now intros ->.
  - now intros ->.
  - now intros ->.
  - now intros ->.
  - now intros e ->.
  - intros data items -> Hiter Hall. rewrite Hiter. simpl.
    destruct (mapiM_from_dict alloc items 0 Hall) as (bs & -> & Hlen & _).
    exists bs. split; [reflexivity | exact Hlen].
  - intros data ->. destruct (Py.iter data) as [items | e]; simpl; [| reflexivity].
    rewrite <- (mapiM_is_ok alloc items 0).
    now destruct (mapiM _ 0 items).
  - intros data e ->. destruct (Py.iter data) as [items | e'] eqn:Hiter; simpl.
    + destruct (mapiM (fun i book => Book.from_dict (alloc i) book) 0 items)
        as [bs | e''] eqn:Hbs; simpl; [discriminate |].
      intros [= ->].
      destruct (mapiM_raise alloc items 0 e Hbs) as (good & bad & rest & -> & Hgood & Hbad).
      split; [exact (from_dict_raise _ _ _ Hbad) |].
      right. exists good, bad, rest. repeat split; assumption.
    + intros [= ->]. split; [| now left].
      left. destruct data; simpl in Hiter; congruence.
  - now intros [-> | ->].
Qed.

End Part9.

Lemma init_outcomes_witness :
  Library.init "library.json" Z.of_nat no_files
  = Ok (Library.World (Library.mk "library.json" []) no_files [])
  /\ Library.init "library.json" Z.of_nat (fun _ => NoAccess) = Raise OSError
  /\ Library.init "library.json" Z.of_nat (fun _ => NotText) = Raise UnicodeDecodeError
  /\ Library.init "library.json" Z.of_nat (fun _ => NotJSON) = Raise JSONDecodeError
  /\ Library.init "library.json" Z.of_nat (fun _ => Unloadable ValueError)
     = Raise ValueError
  /\ (exists bs,
         Library.init "library.json" Z.of_nat
                      (fun _ => Document (PList [Book.to_dict dune; Book.to_dict emma]))
         = Ok (Library.World (Library.mk "library.json" bs)
                 (fun _ => Document (PList [Book.to_dict dune; Book.to_dict emma])) [])
         /\ List.length bs = 2%nat)
  /\ is_ok (Library.init "library.json" Z.of_nat (fun _ => Document (PInt 5))) = false
  /\ (KeyError "author" = TypeError
      \/ exists key, In key Book.fields /\ KeyError "author" = KeyError key)
  /\ Library.init "library.json" Z.of_nat (fun _ => Document (PDict []))
     = Ok (Library.World (Library.mk "library.json" [])
             (fun _ => Document (PDict [])) []).
Proof.
  pose proof (fun disk => init_outcomes "library.json" Z.of_nat disk) as H.
  split; [| split; [| split; [| split; [| split; [| split; [| split; [| split]]]]]]].
  - apply (proj1 (H no_files)). reflexivity.
  - apply (proj1 (proj2 (H (fun _ => NoAccess)))). reflexivity.
  - apply (proj1 (proj2 (proj2 (H (fun _ => NotText))))). reflexivity.
  - apply (proj1 (proj2 (proj2 (proj2 (H (fun _ => NotJSON)))))). reflexivity.
  - apply (proj1 (proj2 (proj2 (proj2 (proj2 (H (fun _ => Unloadable ValueError))))))
             ValueError).
    reflexivity.
  - apply (proj1 (proj2 (proj2 (proj2 (proj2 (proj2
             (H (fun _ => Document (PList [Book.to_dict dune; Book.to_dict emma]))))))))
             (PList [Book.to_dict dune; Book.to_dict emma])
             [Book.to_dict dune; Book.to_dict emma]).
    + reflexivity.
    + reflexivity.
    + repeat constructor.
  - apply (proj1 (proj2 (proj2 (proj2 (proj2 (proj2 (proj2
             (H (fun _ => Document (PInt 5)))))))))
             (PInt 5)).
    reflexivity.
  - apply (proj1 (proj1 (proj2 (proj2 (proj2 (proj2 (proj2 (proj2 (proj2
             (H (fun _ => Document (PList [Book.to_dict dune;
                                           PDict [("title", PStr "Emma")]]))))))))))
             (PList [Book.to_dict dune; PDict [("title", PStr "Emma")]])
             (KeyError "author") eq_refl eq_refl)).
  - apply (proj2 (proj2 (proj2 (proj2 (proj2 (proj2 (proj2 (proj2
             (H (fun _ => Document (PDict []))))))))))).
    left. reflexivity.
Defined.

(** C6 as the spec words it fails: a file holding an empty JSON object, or
    an empty JSON text, is no array of records, and yet the library is
    built, with an empty collection; an object with members makes the
    construction fail with a [TypeError], which is no decoding error. *)
Lemma init_accepts_other_documents :
  Library.init "library.json" Z.of_nat (fun _ => Document (PDict []))
  = Ok (Library.World (Library.mk "library.json" [])
          (fun _ => Document (PDict [])) [])
  /\ Library.init "library.json" Z.of_nat (fun _ => Document (PStr ""))
     = Ok (Library.World (Library.mk "library.json" [])
             (fun _ => Document (PStr "")) [])
  /\ Library.init "library.json" Z.of_nat
                  (fun _ => Document (PDict [("books", PList [])]))
     = Raise TypeError.
Proof. repeat split. Qed.

Section Part10.

Context {rt : Runtime} {attrs : Book.Attributes} {md : Menu.Medium}.

Lemma from_dict_to_dict (self : Z) (b : Book.t) :
  Book.from_dict self (Book.to_dict b)
  = Ok (Book.mk self (Book.id b) (Book.title b) (Book.author b)
          (Book.year b) (Book.status b)).
Proof. reflexivity. Qed.

Lemma mapiM_to_dict (alloc : nat -> Z) (bs : list Book.t) (n : nat) :
  exists bs',
    mapiM (fun i book => Book.from_dict (alloc i) book) n (map Book.to_dict bs)
    = Ok bs'
    /\ Forall2 Book.same_record bs' bs.
Proof.
  revert n. induction bs as [| b bs IH]; intros n.
  - exists []. split; [reflexivity | constructor].
  - destruct (IH (S n)) as (bs' & Hbs' & Hsame).
    cbn [map mapiM]. rewrite from_dict_to_dict, Hbs'. simpl.
    eexists. split; [reflexivity |].
    constructor; [| exact Hsame].
    unfold Book.same_record. simpl. repeat split.
Qed.

(** C2.  Whatever the collection, after [save_books] a new [Library] on the
    same path, or [load_books] again, holds records equal to the saved
    ones in all five fields, as many and in the same order. *)
Theorem save_load_round_trip (w : Library.world) (alloc : nat -> Z) :
  (exists w',
      Library.init (Library.file_path (Library.self w)) alloc
                   (Library.disk (Library.save_books w))
      = Ok w'
      /\ Forall2 Book.same_record (Library.books (Library.self w'))
                 (Library.books (Library.self w)))
  /\ (exists w',
         Library.load_books alloc (Library.save_books w) = Ok w'
         /\ Forall2 Book.same_record (Library.books (Library.self w'))
                    (Library.books (Library.self w))).
Proof.
  unfold Library.init, Library.load_books, Library.save_books, write. simpl.
  rewrite String.eqb_refl. simpl.
  destruct (mapiM_to_dict alloc (Library.books (Library.self w)) 0)
    as (bs' & -> & Hsame).
  simpl. split; eexists; (split; [reflexivity | exact Hsame]).
Qed.

End Part10.

(** ** Scanning, removing and assigning in the collection *)

Section Part11.

Context {rt : Runtime} {attrs : Book.Attributes} {md : Menu.Medium}.

Section Collection.

Import Library.

Variable book_id : Z.

Lemma scan_none (l : list Book.t) :
  (forall x, In x l -> Py.eq_int (Book.id x) book_id = false) ->
  scan book_id l = None.
Proof.
  induction l as [| y l IH]; intros H; simpl; [reflexivity |].
  rewrite (H y (or_introl eq_refl)).
  apply IH. intros x Hx. apply H. now right.
Qed.

Lemma scan_first (l1 l2 : list Book.t) (book : Book.t) :
  (forall x, In x l1 -> Py.eq_int (Book.id x) book_id = false) ->
  Py.eq_int (Book.id book) book_id = true ->
  scan book_id (l1 ++ book :: l2) = Some book.
Proof.
  intros Hl1 Hb. induction l1 as [| y l1 IH]; simpl.
  - now rewrite Hb.
  - rewrite (Hl1 y (or_introl eq_refl)).
    apply IH. intros x Hx. apply Hl1. now right.
Qed.

Lemma scan_some (l : list Book.t) (book : Book.t) :
  scan book_id l = Some book ->
  exists l1 l2, l = l1 ++ book :: l2
                /\ (forall x, In x l1 -> Py.eq_int (Book.id x) book_id = false)
                /\ Py.eq_int (Book.id book) book_id = true.
Proof.
  induction l as [| y l IH]; simpl; [discriminate |].
  destruct (Py.eq_int (Book.id y) book_id) eqn:Hy.
  - intros [= ->]. exists [], l. repeat split; [| exact Hy]. intros x [].
  - intros H. destruct (IH H) as (l1 & l2 & -> & Hl1 & Hb).
    exists (y :: l1), l2. repeat split; [| exact Hb].
    intros x [<- | Hx]; [exact Hy | now apply Hl1].
Qed.

Lemma filter_hit_none (l : list Book.t) :
  (forall x, In x l -> Py.eq_int (Book.id x) book_id = false) ->
  filter (fun b => Py.eq_int (Book.id b) book_id) l = [].
Proof.
  induction l as [| y l IH]; intros H; simpl; [reflexivity |].
  rewrite (H y (or_introl eq_refl)). apply IH. intros x Hx. apply H. now right.
Qed.

End Collection.

Lemma other_objects (l1 l2 : list Book.t) (book x : Book.t) :
  Library.distinct_objects (l1 ++ book :: l2) ->
  In x (l1 ++ l2) -> Book.same_object x book = false.
Proof.
  unfold Library.distinct_objects, Book.same_object.
  rewrite map_app. simpl. intros Hnd Hx.
  apply NoDup_remove_2 in Hnd. rewrite <- map_app in Hnd.
  apply Z.eqb_neq. intros Heq. apply Hnd. rewrite <- Heq. now apply in_map.
Qed.

Lemma list_remove_middle (l1 l2 : list Book.t) (book : Book.t) :
  Library.distinct_objects (l1 ++ book :: l2) ->
  Library.list_remove book (l1 ++ book :: l2) = l1 ++ l2.
Proof.
  intros Hnd.
  assert (H : forall x, In x l1 -> Book.same_object x book = false).
  { intros x Hx. apply (other_objects l1 l2 book x Hnd).
    apply in_or_app. now left. }
  clear Hnd. induction l1 as [| y l1 IH]; simpl.
  - unfold Book.same_object. now rewrite Z.eqb_refl.
  - rewrite (H y (or_introl eq_refl)). f_equal.
    apply IH. intros x Hx. apply H. now right.
Qed.

Lemma assign_status_others (l : list Book.t) (book : Book.t) (v : pyval) :
  (forall x, In x l -> Book.same_object x book = false) ->
  Library.assign_status book v l = l.
Proof.
  unfold Library.assign_status.
  induction l as [| y l IH]; intros H; simpl; [reflexivity |].
  rewrite (H y (or_introl eq_refl)). f_equal.
  apply IH. intros x Hx. apply H. now right.
Qed.

Lemma assign_status_middle (l1 l2 : list Book.t) (book : Book.t) (v : pyval) :
  Library.distinct_objects (l1 ++ book :: l2) ->
  Library.assign_status book v (l1 ++ book :: l2)
  = l1 ++ Book.set_status book v :: l2.
Proof.
  intros Hnd.
  pose proof (other_objects l1 l2 book) as Hother.
  unfold Library.assign_status. rewrite map_app. simpl.
  fold (Library.assign_status book v l1). fold (Library.assign_status book v l2).
  rewrite !assign_status_others
    by (intros x Hx; apply Hother; [exact Hnd | apply in_or_app; tauto]).
  unfold Book.same_object. now rewrite Z.eqb_refl.
Qed.

Lemma statuses_checked (status : string) :
  existsb (String.eqb status) Library.statuses = true <-> In status Library.statuses.
Proof.
  rewrite existsb_exists. split.
  - intros (s & Hin & Heq). apply String.eqb_eq in Heq. now subst.
  - intros Hin. exists status. split; [exact Hin | apply String.eqb_refl].
Qed.

End Part11.

(** ** Changing a status *)

Section Part12.

Context {rt : Runtime} {attrs : Book.Attributes} {md : Menu.Medium}.

(** C4.  [update_status] first checks the status against the two listed
    ones: given another it only prints the refusal, whatever the
    collection.  Given a listed one, the first book with the identifier has
    its status overwritten, its other fields and every other book staying
    as they are, the collection is saved and the change announced; when no
    book has the identifier, nothing is changed or saved and the miss is
    announced. *)
Theorem update_status_outcomes (book_id : Z) (status : string) (w : Library.world) :
  (~ In status Library.statuses ->
   Library.self (Library.update_status book_id status w) = Library.self w
   /\ Library.disk (Library.update_status book_id status w) = Library.disk w
   /\ Library.stdout (Library.update_status book_id status w)
      = Library.stdout w ++ [BadStatus])
  /\ (In status Library.statuses ->
      forall l1 book l2,
        Library.distinct_objects (Library.books (Library.self w)) ->
        Library.books (Library.self w) = l1 ++ book :: l2 ->
        (forall x, In x l1 -> Py.eq_int (Book.id x) book_id = false) ->
        Py.eq_int (Book.id book) book_id = true ->
        let w' := Library.update_status book_id status w in
        let book' := Book.mk (Book.addr book) (Book.id book) (Book.title book)
                             (Book.author book) (Book.year book) (PStr status) in
        Library.books (Library.self w') = l1 ++ book' :: l2
        /\ Library.file_path (Library.self w') = Library.file_path (Library.self w)
        /\ Library.disk w'
           = write (Library.disk w) (Library.file_path (Library.self w))
                   (Document (PList (map Book.to_dict (l1 ++ book' :: l2))))
        /\ Library.stdout w' = Library.stdout w ++ [StatusChanged book_id status])
  /\ (In status Library.statuses ->
      (forall x, In x (Library.books (Library.self w)) ->
                 Py.eq_int (Book.id x) book_id = false) ->
      Library.self (Library.update_status book_id status w) = Library.self w
      /\ Library.disk (Library.update_status book_id status w) = Library.disk w
      /\ Library.stdout (Library.update_status book_id status w)
         = Library.stdout w ++ [NotFound book_id]).
Proof.
  unfold Library.update_status.
  split; [| split].
  - intros Hbad.
    destruct (existsb (String.eqb status) Library.statuses) eqn:Hex.
    + elim Hbad. now apply statuses_checked.
    + simpl. repeat split.
  - intros Hin l1 book l2 Hnd Hbooks Hl1 Hbook.
    apply statuses_checked in Hin. rewrite Hin. simpl.
    rewrite Hbooks in Hnd |- *.
    rewrite (scan_first book_id l1 l2 book Hl1 Hbook).
    simpl. rewrite (assign_status_middle l1 l2 book (PStr status) Hnd).
    repeat split.
  - intros Hin Hmiss.
    apply statuses_checked in Hin. rewrite Hin. simpl.
    rewrite (scan_none book_id _ Hmiss). simpl. repeat split.
Qed.

End Part12.

Lemma update_status_outcomes_witness :
  Library.books (Library.self (Library.update_status 7 "выдана" (shelf [emma; dune])))
  = [emma; Book.mk 7 (PInt 7) (PStr "Dune") (PStr "Herbert") (PInt 1965) (PStr "выдана")]
  /\ Library.self (Library.update_status 7 "borrowed" (shelf [emma; dune]))
     = Library.self (shelf [emma; dune])
  /\ Library.stdout (Library.update_status 42 "выдана" (shelf [emma; dune]))
     = [NotFound 42].
Proof.
  split; [| split].
  - apply (proj1 (proj2 (update_status_outcomes 7 "выдана" (shelf [emma; dune])))
             (or_intror (or_introl eq_refl)) [emma] dune []).
    + repeat constructor; simpl; intuition discriminate.
    + reflexivity.
    + intros x [<- | []]. reflexivity.
    + reflexivity.
  - apply (proj1 (update_status_outcomes 7 "borrowed" (shelf [emma; dune]))).
    simpl. intros H. repeat (destruct H as [H | H]; [discriminate H |]). exact H.
  - apply (proj2 (proj2 (update_status_outcomes 42 "выдана" (shelf [emma; dune])))
             (or_intror (or_introl eq_refl))).
    intros x [<- | [<- | []]]; reflexivity.
Defined.

(** ** Deleting *)

Section Part13.

Context {rt : Runtime} {attrs : Book.Attributes} {md : Menu.Medium}.

Lemma search_by_id (n : Z) (w : Library.world) :
  Library.search_books [("id", PInt n)] w
  = Ok (filter (fun b => Py.eq_int (Book.id b) n) (Library.books (Library.self w))).
Proof.
  rewrite search_books_binds by reflexivity.
  rewrite search_loop_ok by reflexivity.
  f_equal. apply filter_ext. intros b. unfold matches. simpl. apply andb_true_r.
Qed.

(** C5.  [delete_book] removes the first book with the identifier, keeps
    the others in their order, saves and announces the removal; when no
    book has the identifier it changes and saves nothing and announces the
    miss.  Identifiers being unique, a search for the identifier finds
    nothing afterwards. *)
Theorem delete_book_outcomes (book_id : Z) (w : Library.world) :
  ((forall x, In x (Library.books (Library.self w)) ->
              Py.eq_int (Book.id x) book_id = false) ->
   Library.self (Library.delete_book book_id w) = Library.self w
   /\ Library.disk (Library.delete_book book_id w) = Library.disk w
   /\ Library.stdout (Library.delete_book book_id w)
      = Library.stdout w ++ [NotFound book_id])
  /\ (forall l1 book l2,
         Library.distinct_objects (Library.books (Library.self w)) ->
         Library.books (Library.self w) = l1 ++ book :: l2 ->
         (forall x, In x l1 -> Py.eq_int (Book.id x) book_id = false) ->
         Py.eq_int (Book.id book) book_id = true ->
         let w' := Library.delete_book book_id w in
         Library.books (Library.self w') = l1 ++ l2
         /\ Library.file_path (Library.self w') = Library.file_path (Library.self w)
         /\ Library.disk w'
            = write (Library.disk w) (Library.file_path (Library.self w))
                    (Document (PList (map Book.to_dict (l1 ++ l2))))
         /\ Library.stdout w' = Library.stdout w ++ [Deleted book_id])
  /\ (Library.distinct_objects (Library.books (Library.self w)) ->
      unique_ids (Library.books (Library.self w)) ->
      Library.search_books [("id", PInt book_id)] (Library.delete_book book_id w)
      = Ok []).
Proof.
  split; [| split].
  - intros Hmiss. unfold Library.delete_book.
    rewrite (scan_none book_id _ Hmiss). simpl. repeat split.
  - intros l1 book l2 Hnd Hbooks Hl1 Hbook. unfold Library.delete_book.
    rewrite Hbooks in Hnd |- *.
    rewrite (scan_first book_id l1 l2 book Hl1 Hbook).
    simpl. rewrite (list_remove_middle l1 l2 book Hnd). repeat split.
  - intros Hnd Huniq. rewrite search_by_id. f_equal.
    unfold Library.delete_book.
    destruct (Library.scan book_id (Library.books (Library.self w)))
      as [book |] eqn:Hscan.
    + destruct (scan_some book_id _ book Hscan) as (l1 & l2 & Hbooks & Hl1 & Hbook).
      simpl. rewrite Hbooks in Hnd |- *.
      rewrite (list_remove_middle l1 l2 book Hnd).
      specialize (Huniq book_id). rewrite Hbooks, filter_app in Huniq.
      simpl in Huniq. rewrite Hbook, length_app in Huniq. simpl in Huniq.
      rewrite filter_app, (filter_hit_none book_id l1 Hl1). simpl.
      destruct (filter (fun b => Py.eq_int (Book.id b) book_id) l2);
        [reflexivity | simpl in Huniq; lia].
    + simpl. apply filter_hit_none.
      intros x Hx. exact (find_none _ _ Hscan x Hx).
Qed.

End Part13.

Lemma delete_book_outcomes_witness :
  Library.stdout (Library.delete_book 42 (shelf [emma; dune])) = [NotFound 42]
  /\ Library.books (Library.self (Library.delete_book 7 (shelf [emma; dune]))) = [emma]
  /\ Library.search_books [("id", PInt 7)] (Library.delete_book 7 (shelf [emma; dune]))
     = Ok [].
Proof.
  assert (Hnd : Library.distinct_objects [emma; dune])
    by (repeat constructor; simpl; intuition discriminate).
  split; [| split].
  - apply (proj1 (delete_book_outcomes 42 (shelf [emma; dune]))).
    intros x [<- | [<- | []]]; reflexivity.
  - apply (proj1 (proj2 (delete_book_outcomes 7 (shelf [emma; dune]))) [emma] dune []).
    + exact Hnd.
    + reflexivity.
    + intros x [<- | []]. reflexivity.
    + reflexivity.
  - apply (proj2 (proj2 (delete_book_outcomes 7 (shelf [emma; dune])))).
    + exact Hnd.
    + intros n. unfold shelf, emma, dune. cbn [Library.books Library.self filter Book.id Py.eq_int].
      destruct (Z.eqb_spec 9 n), (Z.eqb_spec 7 n); simpl; lia.
Defined.

(** Uniqueness of the identifiers is needed for the search to come back
    empty: of two books answering to the identifier, the scan only removes
    the first. *)
Lemma delete_book_first_only :
  Library.search_books
    [("id", PInt 7)]
    (Library.delete_book 7
       (shelf [dune;
               Book.mk 8 (PInt 7) (PStr "Dune Messiah") (PStr "Herbert") (PInt 1969)
                       (PStr "в наличии")]))
  = Ok [Book.mk 8 (PInt 7) (PStr "Dune Messiah") (PStr "Herbert") (PInt 1969)
                (PStr "в наличии")].
Proof. reflexivity. Qed.

(** ** The collection holds distinct objects

    The methods of [Library] never put one object twice in the list: the
    invariant [distinct_objects] holds of a new library and every method
    keeps it, given that the allocator never hands out the address of an
    object that is alive. *)

Section Part14.

Context {rt : Runtime} {attrs : Book.Attributes} {md : Menu.Medium}.

Lemma from_dict_addr (self : Z) (data : pyval) (b : Book.t) :
  Book.from_dict self data = Ok b -> Book.addr b = self.
Proof.
  unfold Book.from_dict.
  destruct (Py.getitem data "title"); [| discriminate].
  destruct (Py.getitem data "author"); [| discriminate].
  destruct (Py.getitem data "year"); [| discriminate]. simpl.
  destruct (Py.getitem data "id"); [| discriminate]. simpl.
  destruct (Py.getitem data "status"); [| discriminate]. simpl.
  now intros [= <-].
Qed.

Lemma mapiM_addr (alloc : nat -> Z) (items : list pyval) (n : nat) (bs : list Book.t) :
  mapiM (fun i book => Book.from_dict (alloc i) book) n items = Ok bs ->
  map Book.addr bs = map alloc (seq n (List.length items)).
Proof.
  revert n bs. induction items as [| item items IH]; intros n bs; simpl.
  - now intros [= <-].
  - destruct (Book.from_dict (alloc n) item) as [b |] eqn:Hb; [| discriminate].
    simpl.
    destruct (mapiM (fun i book => Book.from_dict (alloc i) book) (S n) items)
      as [bs' |] eqn:Hbs'; [| discriminate].
    simpl. intros [= <-]. simpl.
    now rewrite (from_dict_addr _ _ _ Hb), (IH _ _ Hbs').
Qed.

Lemma init_distinct (path : string) (alloc : nat -> Z) (disk : filesystem)
    (w : Library.world) :
  (forall i j, alloc i = alloc j -> i = j) ->
  Library.init path alloc disk = Ok w ->
  Library.distinct_objects (Library.books (Library.self w)).
Proof.
  intros Hinj. unfold Library.init, Library.load_books, Library.distinct_objects.
  simpl. destruct (disk path) as [| | | | e | data].
  - intros [= <-]. constructor.
  - discriminate.
  - discriminate.
  - discriminate.
  - discriminate.
  - destruct (Py.iter data) as [items |]; [| discriminate]. simpl.
    destruct (mapiM (fun i book => Book.from_dict (alloc i) book) 0 items)
      as [bs |] eqn:Hbs; [| discriminate].
    simpl. intros [= <-]. simpl.
    rewrite (mapiM_addr _ _ _ _ Hbs).
    apply Finite.Injective_map_NoDup; [exact Hinj | apply seq_NoDup].
Qed.

Lemma add_book_distinct (a : Z) (title author year : pyval) (w : Library.world) :
  ~ In a (map Book.addr (Library.books (Library.self w))) ->
  Library.distinct_objects (Library.books (Library.self w)) ->
  Library.distinct_objects
    (Library.books (Library.self (Library.add_book a title author year w))).
Proof.
  unfold Library.distinct_objects. simpl. intros Hfresh Hnd.
  rewrite map_app. simpl.
  apply NoDup_app; [exact Hnd | repeat constructor; intros [] |].
  intros x Hx [<- | []]. contradiction.
Qed.

Lemma list_remove_subset (x z : Book.t) (l : list Book.t) :
  In z (Library.list_remove x l) -> In z l.
Proof.
  induction l as [| y l IH]; simpl; [tauto |].
  destruct (Book.same_object y x); simpl; tauto.
Qed.

Lemma list_remove_distinct (x : Book.t) (l : list Book.t) :
  Library.distinct_objects l -> Library.distinct_objects (Library.list_remove x l).
Proof.
  unfold Library.distinct_objects.
  induction l as [| y l IH]; simpl; intros Hnd; [constructor |].
  inversion Hnd as [| ? ? Hy Hl]; subst.
  destruct (Book.same_object y x); [exact Hl |].
  simpl. constructor; [| now apply IH].
  intros Hin. apply Hy. apply in_map_iff in Hin as (z & Hz & Hin).
  rewrite <- Hz. apply in_map. now apply (list_remove_subset x).
Qed.

Lemma delete_book_distinct (book_id : Z) (w : Library.world) :
  Library.distinct_objects (Library.books (Library.self w)) ->
  Library.distinct_objects (Library.books (Library.self (Library.delete_book book_id w))).
Proof.
  intros Hnd. unfold Library.delete_book.
  destruct (Library.scan book_id (Library.books (Library.self w))); simpl;
    [now apply list_remove_distinct | exact Hnd].
Qed.

Lemma assign_status_addr (book : Book.t) (v : pyval) (l : list Book.t) :
  map Book.addr (Library.assign_status book v l) = map Book.addr l.
Proof.
  unfold Library.assign_status. rewrite map_map. apply map_ext.
  intros y. now destruct (Book.same_object y book).
Qed.

Lemma update_status_distinct (book_id : Z) (status : string) (w : Library.world) :
  Library.distinct_objects (Library.books (Library.self w)) ->
  Library.distinct_objects
    (Library.books (Library.self (Library.update_status book_id status w))).
Proof.
  intros Hnd. unfold Library.update_status, Library.distinct_objects.
  destruct (existsb (String.eqb status) Library.statuses); simpl; [| exact Hnd].
  destruct (Library.scan book_id (Library.books (Library.self w))); simpl;
    [now rewrite assign_status_addr | exact Hnd].
Qed.

End Part14.

(** ** Adding *)

Section Part15.

Context {rt : Runtime} {attrs : Book.Attributes} {md : Menu.Medium}.

Lemma add_books_books (calls : list add_call) (w : Library.world) :
  Library.books (Library.self (add_books calls w))
  = Library.books (Library.self w) ++ map book_of_call calls.
Proof.
  revert w. induction calls as [| c calls IH]; intros w; simpl.
  - now rewrite app_nil_r.
  - rewrite IH. simpl. now rewrite <- app_assoc.
Qed.

Lemma add_books_stdout (calls : list add_call) (w : Library.world) :
  Library.stdout (add_books calls w)
  = Library.stdout w ++ map line_of_call calls.
Proof.
  revert w. induction calls as [| c calls IH]; intros w; simpl.
  - now rewrite app_nil_r.
  - rewrite IH. simpl. now rewrite <- app_assoc.
Qed.

Lemma announced_lines (calls : list add_call) :
  announced_ids (map line_of_call calls) = map (fun c => PInt (new_addr c)) calls.
Proof.
  induction calls as [| c calls IH]; simpl; [reflexivity | now rewrite <- IH].
Qed.

Lemma fresh_not_alive (calls : list add_call) (w : Library.world) (c : add_call) :
  fresh_addresses calls w ->
  In c calls ->
  ~ In (new_addr c) (map Book.addr (Library.books (Library.self w))).
Proof.
  revert w. induction calls as [| c0 calls IH]; intros w; simpl; [tauto |].
  intros [Hc0 Hrest] [<- | Hin]; [exact Hc0 |].
  intros Halive. apply (IH _ Hrest Hin). simpl.
  rewrite map_app. apply in_or_app. now left.
Qed.

Lemma fresh_distinct (calls : list add_call) (w : Library.world) :
  fresh_addresses calls w -> NoDup (map new_addr calls).
Proof.
  revert w. induction calls as [| c calls IH]; intros w; simpl.
  - constructor.
  - intros [_ Hrest]. constructor; [| exact (IH _ Hrest)].
    intros Hin. apply in_map_iff in Hin as (c' & Heq & Hin).
    apply (fresh_not_alive calls _ c' Hrest Hin). simpl.
    rewrite map_app. apply in_or_app. right. simpl. now left.
Qed.

(** As long as books are only added: in a run of [add_book] calls, each
    given an address that no book alive has, the identifiers announced are
    pairwise distinct; each call appends its record to the collection, in
    the order of the calls, and the record has the default status. *)
Lemma add_books_distinct_ids (calls : list add_call) (w : Library.world) :
  fresh_addresses calls w ->
  Library.books (Library.self (add_books calls w))
  = Library.books (Library.self w) ++ map book_of_call calls
  /\ (exists out,
         Library.stdout (add_books calls w) = Library.stdout w ++ out
         /\ announced_ids out = map (fun c => Book.id (book_of_call c)) calls
         /\ NoDup (announced_ids out))
  /\ (forall c, In c calls -> Book.status (book_of_call c) = PStr "в наличии").
Proof.
  intros Hfresh. split; [apply add_books_books | split].
  - exists (map line_of_call calls).
    split; [apply add_books_stdout |]. split; [apply announced_lines |].
    rewrite announced_lines.
    rewrite <- (map_map new_addr PInt).
    apply Finite.Injective_map_NoDup; [| exact (fresh_distinct calls w Hfresh)].
    now intros x y [= ->].
  - reflexivity.
Qed.

End Part15.

Lemma add_books_distinct_ids_witness :
  Library.books
    (Library.self
       (add_books [AddCall 100 (PStr "Dune") (PStr "Herbert") (PInt 1965);
                   AddCall 200 (PStr "Emma") (PStr "Austen") (PInt 1815)]
                  (shelf [dune])))
  = [dune;
     Book.mk 100 (PInt 100) (PStr "Dune") (PStr "Herbert") (PInt 1965) (PStr "в наличии");
     Book.mk 200 (PInt 200) (PStr "Emma") (PStr "Austen") (PInt 1815) (PStr "в наличии")].
Proof.
  refine (proj1 (add_books_distinct_ids
                   [AddCall 100 (PStr "Dune") (PStr "Herbert") (PInt 1965);
                    AddCall 200 (PStr "Emma") (PStr "Austen") (PInt 1815)]
                   (shelf [dune]) _)).
  simpl. repeat split; intuition discriminate.
Defined.

Section Part16.

Context {rt : Runtime} {attrs : Book.Attributes} {md : Menu.Medium}.

Lemma list_remove_last (x : Book.t) (l : list Book.t) :
  (forall y, In y l -> Book.same_object y x = false) ->
  Library.list_remove x (l ++ [x]) = l.
Proof.
  induction l as [| y l IH]; intros H; simpl.
  - unfold Book.same_object. now rewrite Z.eqb_refl.
  - rewrite (H y (or_introl eq_refl)). f_equal.
    apply IH. intros z Hz. apply H. now right.
Qed.

Lemma delete_after_add (a : Z) (title author year : pyval) (w : Library.world) :
  ~ In a (map Book.addr (Library.books (Library.self w))) ->
  (forall x, In x (Library.books (Library.self w)) -> Py.eq_int (Book.id x) a = false) ->
  Library.books
    (Library.self (Library.delete_book a (Library.add_book a title author year w)))
  = Library.books (Library.self w)
  /\ Library.stdout (Library.delete_book a (Library.add_book a title author year w))
     = Library.stdout w ++ [Added title (PInt a); Deleted a].
Proof.
  intros Hfresh Hids. unfold Library.delete_book.
  assert (Hscan : Library.scan a (Library.books
                    (Library.self (Library.add_book a title author year w)))
                  = Some (Book.init a title author year)).
  { simpl. apply (scan_first a _ [] _ Hids). simpl. apply Z.eqb_refl. }
  rewrite Hscan. simpl. rewrite list_remove_last.
  - split; [reflexivity | now rewrite <- app_assoc].
  - intros y Hy. unfold Book.same_object. simpl. apply Z.eqb_neq.
    intros Heq. apply Hfresh. rewrite <- Heq. now apply in_map.
Qed.

(** C8.  The identifier of a book is the address of its object, and the
    address is free again once the book is deleted.  Let [add_book] create
    a book at the address [a], which it announces as the identifier, and
    let the book be deleted under that identifier.  Then [a] is the
    address of no book of the collection, so the allocator may give it to
    the next object; when it does, the next [add_book] announces the
    identifier [a] a second time, and the identifiers announced in the run
    are not pairwise distinct. *)
Theorem identifier_reused_after_delete (a : Z)
    (title author year title' author' year' : pyval) (w : Library.world) :
  ~ In a (map Book.addr (Library.books (Library.self w))) ->
  (forall x, In x (Library.books (Library.self w)) -> Py.eq_int (Book.id x) a = false) ->
  let w1 := Library.add_book a title author year w in
  let w2 := Library.delete_book a w1 in
  let w3 := Library.add_book a title' author' year' w2 in
  ~ In a (map Book.addr (Library.books (Library.self w2)))
  /\ Library.stdout w3
     = Library.stdout w ++ [Added title (PInt a); Deleted a; Added title' (PInt a)]
  /\ announced_ids (Library.stdout w3)
     = announced_ids (Library.stdout w) ++ [PInt a; PInt a]
  /\ ~ NoDup (announced_ids (Library.stdout w3)).
Proof.
  intros Hfresh Hids. cbv zeta.
  destruct (delete_after_add a title author year w Hfresh Hids) as [Hbooks Hout].
  assert (Hout3 : Library.stdout
                    (Library.add_book a title' author' year'
                       (Library.delete_book a (Library.add_book a title author year w)))
                  = Library.stdout w
                    ++ [Added title (PInt a); Deleted a; Added title' (PInt a)]).
  { change (Library.stdout (Library.add_book a title' author' year' ?w0))
      with (Library.stdout w0 ++ [Added title' (PInt a)]).
    rewrite Hout. now rewrite <- app_assoc. }
  assert (Hids3 : announced_ids
                    (Library.stdout
                       (Library.add_book a title' author' year'
                          (Library.delete_book a
                             (Library.add_book a title author year w))))
                  = announced_ids (Library.stdout w) ++ [PInt a; PInt a]).
  { rewrite Hout3. unfold announced_ids. now rewrite flat_map_app. }
  split; [now rewrite Hbooks |].
  split; [exact Hout3 |].
  split; [exact Hids3 |].
  rewrite Hids3. intros Hnd.
  apply NoDup_app_remove_l in Hnd.
  inversion Hnd as [| ? ? Hin _]; subst. apply Hin. now left.
Qed.

End Part16.

Lemma identifier_reused_after_delete_witness :
  announced_ids
    (Library.stdout
       (Library.add_book 100 (PStr "Emma") (PStr "Austen") (PInt 1815)
          (Library.delete_book 100
             (Library.add_book 100 (PStr "Dune") (PStr "Herbert") (PInt 1965)
                               (shelf [dune])))))
  = [PInt 100; PInt 100].
Proof.
  refine (proj1 (proj2 (proj2
            (identifier_reused_after_delete 100
               (PStr "Dune") (PStr "Herbert") (PInt 1965)
               (PStr "Emma") (PStr "Austen") (PInt 1815) (shelf [dune]) _ _)))).
  - simpl. intros [H | []]. discriminate H.
  - intros x [<- | []]. reflexivity.
Defined.

(** The run at work: a book is added at the address 100, deleted, and a
    second book is added at the address 100, free again; both are
    announced with the identifier 100. *)
Lemma address_reused_after_delete :
  ~ In 100 (map Book.addr
              (Library.books
                 (Library.self
                    (Library.delete_book 100
                       (Library.add_book 100 (PStr "Dune") (PStr "Herbert") (PInt 1965)
                                         (shelf []))))))
  /\ announced_ids
       (Library.stdout
          (Library.add_book 100 (PStr "Emma") (PStr "Austen") (PInt 1815)
             (Library.delete_book 100
                (Library.add_book 100 (PStr "Dune") (PStr "Herbert") (PInt 1965)
                                  (shelf [])))))
     = [PInt 100; PInt 100].
Proof. split; [intros [] | reflexivity]. Qed.

(** ** The two statuses *)

Section Part17.

Context {rt : Runtime} {attrs : Book.Attributes} {md : Menu.Medium}.

Lemma assign_status_listed (book : Book.t) (status : string) (l : list Book.t) :
  In status Library.statuses ->
  Forall status_listed l ->
  Forall status_listed (Library.assign_status book (PStr status) l).
Proof.
  intros Hin Hl. unfold Library.assign_status.
  induction Hl as [| y l Hy _ IH]; simpl; constructor; [| exact IH].
  destruct (Book.same_object y book); [| exact Hy].
  exists status. split; [exact Hin | reflexivity].
Qed.

(** C9, amended.  The two statuses are spelled [в наличии] and [выдана].
    The first is the status [__init__] gives a book; [update_status] takes
    these two and no other; [to_dict] writes the status as it is; so a
    collection whose statuses are among the two stays so under
    [add_book], [delete_book] and [update_status].  [search_books]
    compares a status as it does any text, ignoring case. *)
Theorem status_spellings :
  (forall self title author year,
      Book.status (Book.init self title author year) = PStr "в наличии")
  /\ (forall s, In s Library.statuses <-> s = "в наличии" \/ s = "выдана")
  /\ (forall b, Py.getitem (Book.to_dict b) "status" = Ok (Book.status b))
  /\ (forall w,
         Forall status_listed (Library.books (Library.self w)) ->
         (forall a title author year,
             Forall status_listed
               (Library.books (Library.self (Library.add_book a title author year w))))
         /\ (forall book_id,
                Forall status_listed
                  (Library.books (Library.self (Library.delete_book book_id w))))
         /\ (forall book_id status,
                Forall status_listed
                  (Library.books (Library.self (Library.update_status book_id status w)))))
  /\ (forall b s value,
         Book.status b = PStr s ->
         matches b ("status", value) = ci_equal s (Py.str value)).
Proof.
  split; [reflexivity |].
  split; [intros s; simpl; intuition congruence |].
  split; [reflexivity |].
  split.
  - intros w Hw. repeat split.
    + intros a title author year. simpl.
      apply Forall_app. split; [exact Hw |].
      constructor; [| constructor].
      exists "в наличии". split; [now left | reflexivity].
    + intros book_id. unfold Library.delete_book.
      destruct (Library.scan book_id (Library.books (Library.self w)))
        as [book |]; simpl; [| exact Hw].
      rewrite Forall_forall in Hw |- *.
      intros x Hx. apply Hw. now apply (list_remove_subset book).
    + intros book_id status. unfold Library.update_status.
      destruct (existsb (String.eqb status) Library.statuses) eqn:Hex; simpl;
        [| exact Hw].
      destruct (Library.scan book_id (Library.books (Library.self w))); simpl;
        [| exact Hw].
      apply assign_status_listed; [now apply statuses_checked | exact Hw].
  - intros b s value Hs. unfold matches, Book.getattr. simpl. now rewrite Hs.
Qed.

End Part17.

Lemma status_spellings_witness :
  Forall status_listed
    (Library.books (Library.self (Library.update_status 7 "выдана" (shelf [emma; dune]))))
  /\ matches dune ("status", PStr "В НАЛИЧИИ") = true.
Proof.
  split.
  - refine (proj2 (proj2 (proj1 (proj2 (proj2 (proj2 status_spellings)))
                            (shelf [emma; dune]) _)) 7 "выдана").
    apply Forall_cons; [| apply Forall_cons; [| apply Forall_nil]].
    + exists "выдана". split; [simpl; tauto | reflexivity].
    + exists "в наличии". split; [simpl; tauto | reflexivity].
  - apply (proj2 (proj2 (proj2 (proj2 (status_spellings (rt := plain_runtime)))))
             dune "в наличии" (PStr "В НАЛИЧИИ")).
    reflexivity.
Defined.

(** C9 as the spec words it fails: a new book is not [available], and
    neither [available] nor [checked-out] is a status that
    [update_status] takes. *)
Lemma status_spellings_differ :
  Book.status (Book.init 7 (PStr "Dune") (PStr "Herbert") (PInt 1965))
  <> PStr "available"
  /\ ~ In "available" Library.statuses
  /\ ~ In "checked-out" Library.statuses
  /\ Library.books (Library.self (Library.update_status 7 "checked-out" (shelf [dune])))
     = [dune]
  /\ Library.stdout (Library.update_status 7 "checked-out" (shelf [dune]))
     = [BadStatus].
Proof.
  repeat split; try discriminate;
    simpl; intros H; repeat (destruct H as [H | H]; [discriminate H |]); exact H.
Qed.

(** * Further properties *)

(** ** What a search can return and how it can fail *)

Section Part18.

Context {rt : Runtime} {attrs : Book.Attributes} {md : Menu.Medium}.

Lemma search_step_sound (key : string) (value : pyval) (l r : list Book.t) :
  Library.search_step key value l = Ok r ->
  r = filter (fun b => matches b (key, value)) l.
Proof.
  unfold Library.search_step, matches. cbn [fst snd].
  destruct (String.eqb key "id"); [| now intros [= <-]].
  destruct (Py.int value) as [n | e] eqn:Hint.
  - rewrite (filterM_pure _ (fun b => Py.eq_int (Book.id b) n))
      by (intros; reflexivity).
    now intros [= <-].
  - destruct l as [| b l]; simpl; [now intros [= <-] | discriminate].
Qed.

Lemma search_step_raise (key : string) (value : pyval) (l : list Book.t) (e : exn) :
  Library.search_step key value l = Raise e ->
  key = "id" /\ Py.int value = Raise e.
Proof.
  unfold Library.search_step.
  destruct (String.eqb_spec key "id") as [-> | _]; [| discriminate].
  destruct (Py.int value) as [n | e'] eqn:Hint.
  - rewrite (filterM_pure _ (fun b => Py.eq_int (Book.id b) n))
      by (intros; reflexivity).
    discriminate.
  - destruct l as [| b l]; simpl; [discriminate |].
    intros [= <-]. now split.
Qed.

Lemma search_loop_sound (criteria : list (string * pyval)) (l : list Book.t) :
  match Library.search_loop criteria l with
  | Ok r => r = filter (fun b => forallb (matches b) criteria) l
  | Raise e => exists value, In ("id", value) criteria /\ Py.int value = Raise e
  end.
Proof.
  revert l. induction criteria as [| [key value] criteria IH]; intros l; simpl.
  - now rewrite filter_const.
  - destruct (Library.search_step key value l) as [r1 | e] eqn:Hstep; simpl.
    + apply search_step_sound in Hstep. subst r1.
      specialize (IH (filter (fun b => matches b (key, value)) l)).
      destruct (Library.search_loop criteria _) as [r | e].
      * now rewrite IH, filter_filter.
      * destruct IH as (v & Hin & Hv). exists v. split; [now right | exact Hv].
    + apply search_step_raise in Hstep as [-> Hv].
      exists value. split; [now left | exact Hv].
Qed.

(** X1.  Whatever the criteria, [search_books] either returns exactly the
    books of the collection that satisfy every criterion, in collection
    order, or raises.  It raises [TypeError], before looking at any book,
    exactly when a criterion is keyed [self]; otherwise it can only raise
    the error that [int] raised on the value of an [id] criterion, a
    [TypeError] or a [ValueError].  It never returns a book that is not
    in the collection or that fails a criterion.  A criterion satisfied
    is: for [id], the identifier equals the integer of the value; for any
    other key, the text of the attribute the book or its class has under
    that name, or the empty text when there is none, equals the text of
    the value once both are in lower case. *)
Theorem search_books_sound (criteria : list (string * pyval)) (w : Library.world) :
  match Library.search_books criteria w with
  | Ok r =>
      ~ In "self" (map fst criteria)
      /\ r = filter (fun b => forallb (matches b) criteria)
                    (Library.books (Library.self w))
  | Raise e =>
      (In "self" (map fst criteria) /\ e = TypeError)
      \/ (~ In "self" (map fst criteria)
          /\ (exists value, In ("id", value) criteria /\ Py.int value = Raise e)
          /\ (e = TypeError \/ e = ValueError))
  end.
Proof.
  destruct (binds criteria) eqn:Hbinds.
  - rewrite (search_books_binds criteria w Hbinds).
    apply binds_In in Hbinds.
    pose proof (search_loop_sound criteria (Library.books (Library.self w))) as H.
    destruct (Library.search_loop criteria _) as [r | e]; [now split |].
    right. split; [exact Hbinds |]. split; [exact H |].
    destruct H as (v & _ & Hv). exact (py_int_raises v e Hv).
  - rewrite (search_books_self criteria w Hbinds). left. split; [| reflexivity].
    destruct (in_dec string_dec "self" (map fst criteria)) as [Hin | Hnot];
      [exact Hin |].
    apply binds_In in Hnot. now rewrite Hnot in Hbinds.
Qed.

End Part18.

Lemma search_books_sound_witness :
  (In "self" (map fst [("title", PStr "dune"); ("self", PInt 1)])
   /\ TypeError = TypeError)
  \/ (~ In "self" (map fst [("title", PStr "dune"); ("self", PInt 1)])
      /\ (exists value,
             In ("id", value) [("title", PStr "dune"); ("self", PInt 1)]
             /\ Py.int value = Raise TypeError)
      /\ (TypeError = TypeError \/ TypeError = ValueError)).
Proof.
  exact (search_books_sound (rt := plain_runtime) (attrs := plain_attributes)
           [("title", PStr "dune"); ("self", PInt 1)] (shelf [dune])).
Defined.

(** ** The file follows the collection *)

Section Part19.

Context {rt : Runtime} {attrs : Book.Attributes} {md : Menu.Medium}.

Lemma save_books_synced (w : Library.world) :
  synced (Library.self (Library.save_books w)) (Library.disk (Library.save_books w)).
Proof. unfold synced, write. simpl. unfold write. now rewrite String.eqb_refl. Qed.

Lemma add_book_synced (a : Z) (title author year : pyval) (w : Library.world) :
  synced (Library.self (Library.add_book a title author year w))
         (Library.disk (Library.add_book a title author year w)).
Proof.
  exact (save_books_synced
           (Library.set_books w (Library.books (Library.self w)
                                 ++ [Book.init a title author year]))).
Qed.

Lemma delete_book_synced (book_id : Z) (w : Library.world) :
  synced (Library.self w) (Library.disk w) ->
  synced (Library.self (Library.delete_book book_id w))
         (Library.disk (Library.delete_book book_id w)).
Proof.
  intros Hw. unfold Library.delete_book.
  destruct (Library.scan book_id (Library.books (Library.self w))) as [book |];
    [| exact Hw].
  exact (save_books_synced
           (Library.set_books w (Library.list_remove book
                                   (Library.books (Library.self w))))).
Qed.

Lemma update_status_synced (book_id : Z) (status : string) (w : Library.world) :
  synced (Library.self w) (Library.disk w) ->
  synced (Library.self (Library.update_status book_id status w))
         (Library.disk (Library.update_status book_id status w)).
Proof.
  intros Hw. unfold Library.update_status.
  destruct (existsb (String.eqb status) Library.statuses); simpl; [| exact Hw].
  destruct (Library.scan book_id (Library.books (Library.self w))) as [book |];
    [| exact Hw].
  exact (save_books_synced
           (Library.set_books w (Library.assign_status book (PStr status)
                                   (Library.books (Library.self w))))).
Qed.

(** *** The calls and the methods *)

Lemma add_book_call (o : writing) (a : Z) (title author year : pyval)
    (w : Library.world) :
  match Call.add_book o a title author year w with
  | Library.Returns w' =>
      o = Completes /\ w' = Library.add_book a title author year w
  | Library.Raises e w' =>
      error_of o = Some e
      /\ Library.self w' = Library.self (Library.add_book a title author year w)
      /\ Library.stdout w' = Library.stdout w
      /\ (o = Refused -> Library.disk w' = Library.disk w)
  end.
Proof.
  destruct o; simpl; repeat split; try reflexivity; discriminate.
Qed.

Lemma delete_book_call (o : writing) (book_id : Z) (w : Library.world) :
  match Call.delete_book o book_id w with
  | Library.Returns w' => w' = Library.delete_book book_id w
  | Library.Raises e w' =>
      error_of o = Some e
      /\ Library.self w' = Library.self (Library.delete_book book_id w)
      /\ Library.stdout w' = Library.stdout w
      /\ (o = Refused -> Library.disk w' = Library.disk w)
  end.
Proof.
  unfold Call.delete_book, Library.delete_book.
  destruct (Library.scan book_id (Library.books (Library.self w))); [| reflexivity].
  destruct o; simpl; repeat split; try reflexivity; discriminate.
Qed.

Lemma update_status_call (o : writing) (book_id : Z) (status : string)
    (w : Library.world) :
  match Call.update_status o book_id status w with
  | Library.Returns w' => w' = Library.update_status book_id status w
  | Library.Raises e w' =>
      error_of o = Some e
      /\ Library.self w' = Library.self (Library.update_status book_id status w)
      /\ Library.stdout w' = Library.stdout w
      /\ (o = Refused -> Library.disk w' = Library.disk w)
  end.
Proof.
  unfold Call.update_status, Library.update_status.
  destruct (negb (existsb (String.eqb status) Library.statuses)); [reflexivity |].
  destruct (Library.scan book_id (Library.books (Library.self w))); [| reflexivity].
  destruct o; simpl; repeat split; try reflexivity; discriminate.
Qed.

(** X2.  A call of [add_book] returns exactly when its writing
    completes, and then the file holds the collection as it is in memory;
    calls of [delete_book] and [update_status] that return, which save
    only when they find the book, keep the file in step with the
    collection whenever it was in step before.  A call of [add_book]
    whose writing does not complete raises the exception of the writing,
    with the book in the collection and no line printed; when it is
    [open] that refused, the file is as it was. *)
Theorem mutations_keep_synced (o : writing) (w : Library.world) :
  (forall a title author year w',
      Call.add_book o a title author year w = Library.Returns w' ->
      o = Completes /\ synced (Library.self w') (Library.disk w'))
  /\ (synced (Library.self w) (Library.disk w) ->
      (forall book_id w',
          Call.delete_book o book_id w = Library.Returns w' ->
          synced (Library.self w') (Library.disk w'))
      /\ (forall book_id status w',
             Call.update_status o book_id status w = Library.Returns w' ->
             synced (Library.self w') (Library.disk w')))
  /\ (forall a title author year e w',
         Call.add_book o a title author year w = Library.Raises e w' ->
         error_of o = Some e
         /\ Library.books (Library.self w')
            = Library.books (Library.self w) ++ [Book.init a title author year]
         /\ Library.stdout w' = Library.stdout w
         /\ (o = Refused -> Library.disk w' = Library.disk w)).
Proof.
  split; [| split; [intros Hw; split |]].
  - intros a title author year w' Hcall.
    pose proof (add_book_call o a title author year w) as H.
    rewrite Hcall in H. destruct H as [-> ->].
    split; [reflexivity | apply add_book_synced].
  - intros book_id w' Hcall.
    pose proof (delete_book_call o book_id w) as H.
    rewrite Hcall in H. subst w'. now apply delete_book_synced.
  - intros book_id status w' Hcall.
    pose proof (update_status_call o book_id status w) as H.
    rewrite Hcall in H. subst w'. now apply update_status_synced.
  - intros a title author year e w' Hcall.
    pose proof (add_book_call o a title author year w) as H.
    rewrite Hcall in H. destruct H as (He & Hself & Hout & Hdisk).
    rewrite Hself. repeat split; assumption.
Qed.

End Part19.

Lemma mutations_keep_synced_witness :
  (Completes = Completes
   /\ synced (Library.self
                (Library.add_book 100 (PStr "Emma") (PStr "Austen") (PInt 1815)
                                  (shelf [dune])))
             (Library.disk
                (Library.add_book 100 (PStr "Emma") (PStr "Austen") (PInt 1815)
                                  (shelf [dune]))))
  /\ (error_of Refused = Some OSError
      /\ Library.books
           (Library.self
              (Library.World
                 (Library.mk "library.json"
                    [dune; Book.init 100 (PStr "Emma") (PStr "Austen") (PInt 1815)])
                 no_files []))
         = Library.books (Library.self (shelf [dune]))
           ++ [Book.init 100 (PStr "Emma") (PStr "Austen") (PInt 1815)]
      /\ Library.stdout
           (Library.World
              (Library.mk "library.json"
                 [dune; Book.init 100 (PStr "Emma") (PStr "Austen") (PInt 1815)])
              no_files [])
         = Library.stdout (shelf [dune])
      /\ (Refused = Refused ->
          Library.disk
            (Library.World
               (Library.mk "library.json"
                  [dune; Book.init 100 (PStr "Emma") (PStr "Austen") (PInt 1815)])
               no_files [])
          = Library.disk (shelf [dune]))).
Proof.
  split.
  - exact (proj1 (mutations_keep_synced Completes (shelf [dune]))
             100 (PStr "Emma") (PStr "Austen") (PInt 1815) _ eq_refl).
  - exact (proj2 (proj2 (mutations_keep_synced Refused (shelf [dune])))
             100 (PStr "Emma") (PStr "Austen") (PInt 1815) OSError _ eq_refl).
Defined.

Section Part20.

Context {rt : Runtime} {attrs : Book.Attributes} {md : Menu.Medium}.

Lemma reload_synced (self : Library.t) (disk : filesystem) (alloc : nat -> Z) :
  synced self disk ->
  exists w',
    Library.init (Library.file_path self) alloc disk = Ok w'
    /\ Library.file_path (Library.self w') = Library.file_path self
    /\ Forall2 Book.same_record (Library.books (Library.self w')) (Library.books self).
Proof.
  unfold synced, Library.init, Library.load_books. simpl. intros ->. simpl.
  destruct (mapiM_to_dict alloc (Library.books self) 0) as (bs' & -> & Hsame).
  simpl. eexists. split; [reflexivity |]. split; [reflexivity | exact Hsame].
Qed.

Lemma methods_keep_path (w : Library.world) :
  (forall a title author year,
      Library.file_path (Library.self (Library.add_book a title author year w))
      = Library.file_path (Library.self w))
  /\ (forall book_id,
         Library.file_path (Library.self (Library.delete_book book_id w))
         = Library.file_path (Library.self w))
  /\ (forall book_id status,
         Library.file_path (Library.self (Library.update_status book_id status w))
         = Library.file_path (Library.self w)).
Proof.
  repeat split.
  - intros book_id. unfold Library.delete_book.
    now destruct (Library.scan book_id (Library.books (Library.self w))).
  - intros book_id status. unfold Library.update_status.
    destruct (existsb (String.eqb status) Library.statuses); simpl; [| reflexivity].
    now destruct (Library.scan book_id (Library.books (Library.self w))).
Qed.

(** X3.  Nothing that a call which returned has changed is lost by a
    restart: when the file was in step with the collection, then after a
    call of [add_book], [delete_book] or [update_status] that returns, a
    new [Library] on the same path holds records equal, field by field
    and in the same order, to those in memory.  What a call that raises
    has changed is lost: after a call of [add_book] on which [open]
    refused the path, a new [Library] holds the records of before the
    call, one fewer than there are in memory. *)
Theorem restart_after_mutation (w : Library.world) (alloc : nat -> Z) (o : writing) :
  synced (Library.self w) (Library.disk w) ->
  (forall w1,
      (exists a title author year,
          Call.add_book o a title author year w = Library.Returns w1)
      \/ (exists book_id, Call.delete_book o book_id w = Library.Returns w1)
      \/ (exists book_id status,
             Call.update_status o book_id status w = Library.Returns w1) ->
      exists w',
        Library.init (Library.file_path (Library.self w)) alloc (Library.disk w1)
        = Ok w'
        /\ Forall2 Book.same_record (Library.books (Library.self w'))
                   (Library.books (Library.self w1)))
  /\ (forall a title author year e w1,
         o = Refused ->
         Call.add_book o a title author year w = Library.Raises e w1 ->
         exists w',
           Library.init (Library.file_path (Library.self w)) alloc (Library.disk w1)
           = Ok w'
           /\ Forall2 Book.same_record (Library.books (Library.self w'))
                      (Library.books (Library.self w))
           /\ List.length (Library.books (Library.self w1))
              = S (List.length (Library.books (Library.self w')))).
Proof.
  intros Hw. split.
  - intros w1 Hm.
    destruct (methods_keep_path w) as (Hadd & Hdel & Hupd).
    assert (H1 : Library.file_path (Library.self w1) = Library.file_path (Library.self w)
                 /\ synced (Library.self w1) (Library.disk w1)).
    { destruct Hm as [(a & t & au & y & Hcall) | [(n & Hcall) | (n & st & Hcall)]].
      - pose proof (add_book_call o a t au y w) as H. rewrite Hcall in H.
        destruct H as [_ ->]. split; [apply Hadd | apply add_book_synced].
      - pose proof (delete_book_call o n w) as H. rewrite Hcall in H. subst w1.
        split; [apply Hdel | now apply delete_book_synced].
      - pose proof (update_status_call o n st w) as H. rewrite Hcall in H. subst w1.
        split; [apply Hupd | now apply update_status_synced]. }
    destruct H1 as [Hpath Hs].
    destruct (reload_synced _ _ alloc Hs) as (w' & Hinit & _ & Hsame).
    exists w'. rewrite <- Hpath. now split.
  - intros a title author year e w1 Ho Hcall.
    pose proof (add_book_call o a title author year w) as H. rewrite Hcall in H.
    destruct H as (_ & Hself & _ & Hdisk).
    destruct (reload_synced _ _ alloc Hw) as (w' & Hinit & _ & Hsame).
    exists w'. rewrite (Hdisk Ho). split; [exact Hinit |]. split; [exact Hsame |].
    rewrite Hself. simpl. rewrite length_app. simpl.
    rewrite (Forall2_length Hsame). lia.
Qed.

End Part20.

Lemma restart_after_mutation_witness :
  (exists w',
      Library.init "library.json" Z.of_nat
        (Library.disk (Library.delete_book 7 (Library.save_books (shelf [dune; emma]))))
      = Ok w'
      /\ Forall2 Book.same_record (Library.books (Library.self w'))
                 (Library.books
                    (Library.self
                       (Library.delete_book 7
                          (Library.save_books (shelf [dune; emma]))))))
  /\ (exists w',
         Library.init "library.json" Z.of_nat
           (Library.disk (Library.save_books (shelf [dune; emma])))
         = Ok w'
         /\ Forall2 Book.same_record (Library.books (Library.self w')) [dune; emma]
         /\ 3%nat = S (List.length (Library.books (Library.self w')))).
Proof.
  split.
  - refine (proj1 (restart_after_mutation (Library.save_books (shelf [dune; emma]))
                     Z.of_nat Completes _)
              (Library.delete_book 7 (Library.save_books (shelf [dune; emma]))) _).
    + reflexivity.
    + right. left. exists 7. reflexivity.
  - refine (proj2 (restart_after_mutation (Library.save_books (shelf [dune; emma]))
                     Z.of_nat Refused _)
              100 (PStr "Ulysses") (PStr "Joyce") (PInt 1922) OSError
              (Library.World
                 (Library.mk "library.json"
                    [dune; emma;
                     Book.init 100 (PStr "Ulysses") (PStr "Joyce") (PInt 1922)])
                 (Library.disk (Library.save_books (shelf [dune; emma]))) [])
              eq_refl eq_refl).
    reflexivity.
Defined.

(** ** What loading keeps of a mapping *)

Section Part21.

Context {rt : Runtime} {attrs : Book.Attributes} {md : Menu.Medium}.

(** X4.  A record read by [from_dict] and written again by [to_dict]
    keeps the values of the five keys and nothing else: any other entry
    of the mapping read is gone from the mapping written. *)
Theorem to_dict_keeps_five_keys (self : Z) (data : pyval) (b : Book.t) (key : string) :
  Book.from_dict self data = Ok b ->
  Py.getitem (Book.to_dict b) key
  = if existsb (String.eqb key) Book.fields then Py.getitem data key
    else Raise (KeyError key).
Proof.
  intros Hb.
  assert (Hf : has_fields data = true)
    by (rewrite <- (from_dict_is_ok self data), Hb; reflexivity).
  destruct data as [| | | | | d]; try discriminate.
  unfold has_fields, Book.fields in Hf. simpl in Hf.
  destruct (Py.lookup "id" d) as [i |] eqn:Hi; [| discriminate].
  destruct (Py.lookup "title" d) as [t |] eqn:Ht; [| discriminate].
  destruct (Py.lookup "author" d) as [a |] eqn:Ha; [| discriminate].
  destruct (Py.lookup "year" d) as [y |] eqn:Hy; [| discriminate].
  destruct (Py.lookup "status" d) as [s |] eqn:Hs; [| discriminate].
  rewrite (from_dict_found self d i t a y s Hi Ht Ha Hy Hs) in Hb.
  injection Hb as <-.
  unfold Book.to_dict, Py.getitem, Book.fields. cbn [Py.lookup existsb Book.id
    Book.title Book.author Book.year Book.status].
  rewrite (String.eqb_sym "id"), (String.eqb_sym "title"), (String.eqb_sym "author"),
    (String.eqb_sym "year"), (String.eqb_sym "status").
  destruct (String.eqb_spec key "id") as [-> | _]; [now rewrite Hi |].
  destruct (String.eqb_spec key "title") as [-> | _]; [now rewrite Ht |].
  destruct (String.eqb_spec key "author") as [-> | _]; [now rewrite Ha |].
  destruct (String.eqb_spec key "year") as [-> | _]; [now rewrite Hy |].
  destruct (String.eqb_spec key "status") as [-> | _]; [now rewrite Hs |].
  reflexivity.
Qed.

End Part21.

Lemma to_dict_keeps_five_keys_witness :
  Py.getitem
    (Book.to_dict
       (Book.mk 5 (PInt 7) (PStr "Dune") (PStr "Herbert") (PInt 1965) (PStr "выдана")))
    "shelf"
  = Raise (KeyError "shelf").
Proof.
  refine (to_dict_keeps_five_keys 5
            (PDict [("shelf", PStr "B2"); ("status", PStr "выдана"); ("id", PInt 7);
                    ("title", PStr "Dune"); ("author", PStr "Herbert");
                    ("year", PInt 1965)])
            _ "shelf" _).
  reflexivity.
Defined.

(** ** display_books *)

Section Part22.

Context {rt : Runtime} {attrs : Book.Attributes} {md : Menu.Medium}.

Lemma book_line_same_record (x y : Book.t) :
  Book.same_record x y -> book_line x = book_line y.
Proof.
  intros (Hi & Ht & Ha & Hy & Hs). unfold book_line.
  now rewrite Hi, Ht, Ha, Hy, Hs.
Qed.

Lemma display_books_same_records (x y : Library.t) :
  Forall2 Book.same_record (Library.books x) (Library.books y) ->
  display_books x = display_books y.
Proof.
  unfold display_books. intros H.
  induction H as [| a b l l' Hab Hl IH]; [reflexivity |].
  simpl. f_equal; [now apply book_line_same_record |].
  destruct Hl; [reflexivity |]. simpl in IH. exact IH.
Qed.

(** X10.  What [display_books] prints does not change over a save and a
    restart: a new [Library] on the path just saved to prints the same
    lines, the notice of an empty library included. *)
Theorem display_books_after_restart (w : Library.world) (alloc : nat -> Z) :
  exists w',
    Library.init (Library.file_path (Library.self w)) alloc
                 (Library.disk (Library.save_books w))
    = Ok w'
    /\ display_books (Library.self w') = display_books (Library.self w).
Proof.
  destruct (reload_synced _ _ alloc (save_books_synced w)) as (w' & Hinit & _ & Hsame).
  exists w'. split; [exact Hinit |].
  now apply display_books_same_records.
Qed.

End Part22.

(** ** How many books a deletion removes *)

Section Part23.

Context {rt : Runtime} {attrs : Book.Attributes} {md : Menu.Medium}.

Lemma list_remove_length (x : Book.t) (l : list Book.t) :
  In x l -> S (List.length (Library.list_remove x l)) = List.length l.
Proof.
  induction l as [| y l IH]; simpl; [tauto |].
  destruct (Book.same_object y x) eqn:Hyx; [reflexivity |].
  intros [-> | Hin].
  - unfold Book.same_object in Hyx. now rewrite Z.eqb_refl in Hyx.
  - simpl. now rewrite IH.
Qed.

(** X5.  [delete_book] removes exactly one entry of the collection when
    some book has the identifier and none otherwise, and every book left
    was in the collection before; this holds of any collection, books
    sharing an identifier included. *)
Theorem delete_book_removes_one (book_id : Z) (w : Library.world) :
  List.length (Library.books (Library.self w))
  = (List.length (Library.books (Library.self (Library.delete_book book_id w)))
     + (if existsb (fun b => Py.eq_int (Book.id b) book_id)
                   (Library.books (Library.self w))
        then 1 else 0))%nat
  /\ (forall x, In x (Library.books (Library.self (Library.delete_book book_id w))) ->
                In x (Library.books (Library.self w))).
Proof.
  unfold Library.delete_book, Library.scan.
  destruct (find (fun book => Py.eq_int (Book.id book) book_id)
                 (Library.books (Library.self w))) as [book |] eqn:Hfind; simpl.
  - apply find_some in Hfind as [Hin Hhit].
    assert (Hex : existsb (fun b => Py.eq_int (Book.id b) book_id)
                          (Library.books (Library.self w)) = true)
      by (apply existsb_exists; now exists book).
    rewrite Hex. split.
    + rewrite <- (list_remove_length book _ Hin). lia.
    + intros x. apply list_remove_subset.
  - assert (Hex : existsb (fun b => Py.eq_int (Book.id b) book_id)
                          (Library.books (Library.self w)) = false).
    { destruct (existsb _ _) eqn:Hex; [| reflexivity].
      apply existsb_exists in Hex as (x & Hx & Hhit).
      now rewrite (find_none _ _ Hfind x Hx) in Hhit. }
    rewrite Hex. split; [lia | tauto].
Qed.

End Part23.

(** ** What a change of status leaves alone *)

Section Part24.

Context {rt : Runtime} {attrs : Book.Attributes} {md : Menu.Medium}.

Lemma assign_status_keeps (A : Type) (proj : Book.t -> A) (book : Book.t)
    (v : pyval) (l : list Book.t) :
  (forall y, proj (Book.set_status y v) = proj y) ->
  map proj (Library.assign_status book v l) = map proj l.
Proof.
  intros H. unfold Library.assign_status. rewrite map_map. apply map_ext.
  intros y. destruct (Book.same_object y book); [apply H | reflexivity].
Qed.

Lemma update_status_keeps (A : Type) (proj : Book.t -> A) (book_id : Z)
    (status : string) (w : Library.world) :
  (forall y v, proj (Book.set_status y v) = proj y) ->
  map proj (Library.books (Library.self (Library.update_status book_id status w)))
  = map proj (Library.books (Library.self w)).
Proof.
  intros H. unfold Library.update_status.
  destruct (existsb (String.eqb status) Library.statuses); simpl; [| reflexivity].
  destruct (Library.scan book_id (Library.books (Library.self w))); simpl;
    [| reflexivity].
  apply assign_status_keeps. intros y. apply H.
Qed.

(** X6.  Whatever the identifier, the status and the collection,
    [update_status] leaves the identifiers, titles, authors and years of
    all the books as they are, entry by entry: it adds no book, drops
    none and reorders none. *)
Theorem update_status_keeps_fields (book_id : Z) (status : string) (w : Library.world) :
  let books' := Library.books (Library.self (Library.update_status book_id status w)) in
  map Book.id books' = map Book.id (Library.books (Library.self w))
  /\ map Book.title books' = map Book.title (Library.books (Library.self w))
  /\ map Book.author books' = map Book.author (Library.books (Library.self w))
  /\ map Book.year books' = map Book.year (Library.books (Library.self w))
  /\ List.length books' = List.length (Library.books (Library.self w)).
Proof.
  cbv zeta. repeat split; try (now apply update_status_keeps).
  rewrite <- (length_map Book.id), <- (length_map Book.id (Library.books _)).
  f_equal. now apply update_status_keeps.
Qed.

Lemma scan_assign_status (book_id : Z) (book : Book.t) (v : pyval) (l : list Book.t) :
  Library.scan book_id l = Some book ->
  Library.scan book_id (Library.assign_status book v l)
  = Some (Book.set_status book v).
Proof.
  unfold Library.scan, Library.assign_status. intros Hscan.
  assert (Hself : Book.same_object book book = true)
    by (unfold Book.same_object; apply Z.eqb_refl).
  induction l as [| y l IH]; simpl in *; [discriminate |].
  destruct (Py.eq_int (Book.id y) book_id) eqn:Hy.
  - injection Hscan as ->. rewrite Hself. simpl. now rewrite Hy.
  - destruct (Book.same_object y book); simpl; rewrite Hy; now apply IH.
Qed.

Lemma assign_status_twice (book : Book.t) (v : pyval) (l : list Book.t) :
  Library.assign_status (Book.set_status book v) v (Library.assign_status book v l)
  = Library.assign_status book v l.
Proof.
  unfold Library.assign_status. rewrite map_map. apply map_ext. intros y.
  unfold Book.same_object. simpl.
  destruct (Book.addr y =? Book.addr book)%Z eqn:Hy; simpl; now rewrite Hy.
Qed.

(** X7.  [update_status] is idempotent: the same call made a second time
    changes neither the collection nor any file (it only prints its line
    again). *)
Theorem update_status_idempotent (book_id : Z) (status : string) (w : Library.world) :
  let once := Library.update_status book_id status w in
  let twice := Library.update_status book_id status once in
  Library.self twice = Library.self once
  /\ (forall path, Library.disk twice path = Library.disk once path).
Proof.
  cbv zeta. unfold Library.update_status.
  destruct (existsb (String.eqb status) Library.statuses); simpl; [| now split].
  destruct (Library.scan book_id (Library.books (Library.self w))) as [book |] eqn:Hscan;
    simpl.
  - rewrite (scan_assign_status book_id book (PStr status) _ Hscan). simpl.
    rewrite assign_status_twice. split; [reflexivity |].
    intros path. unfold write. now destruct (String.eqb path _).
  - rewrite Hscan. simpl. now split.
Qed.

End Part24.

(** ** Adding, then finding or deleting *)

Section Part25.

Context {rt : Runtime} {attrs : Book.Attributes} {md : Menu.Medium}.

(** X8.  Deleting the identifier that [add_book] has just announced
    undoes the addition, in memory and in the file, provided no book
    already in the collection answers to that identifier (the address of
    the new object being that of no book alive). *)
Theorem add_then_delete (a : Z) (title author year : pyval) (w : Library.world) :
  ~ In a (map Book.addr (Library.books (Library.self w))) ->
  (forall x, In x (Library.books (Library.self w)) -> Py.eq_int (Book.id x) a = false) ->
  let w' := Library.delete_book a (Library.add_book a title author year w) in
  Library.self w' = Library.self w
  /\ synced (Library.self w') (Library.disk w')
  /\ Library.stdout w' = Library.stdout w ++ [Added title (PInt a); Deleted a].
Proof.
  intros Hfresh Hids. cbv zeta. unfold Library.delete_book.
  assert (Hscan : Library.scan a (Library.books
                    (Library.self (Library.add_book a title author year w)))
                  = Some (Book.init a title author year)).
  { simpl. apply (scan_first a _ [] _ Hids). simpl. apply Z.eqb_refl. }
  rewrite Hscan. simpl.
  rewrite list_remove_last.
  - split; [now destruct w as [[path bs] d out] |].
    split; [unfold synced, write; simpl; now rewrite String.eqb_refl |].
    now rewrite <- app_assoc.
  - intros y Hy. unfold Book.same_object. simpl. apply Z.eqb_neq.
    intros Heq. apply Hfresh. rewrite <- Heq. now apply in_map.
Qed.

End Part25.

Lemma add_then_delete_witness :
  Library.self
    (Library.delete_book 100
       (Library.add_book 100 (PStr "Emma") (PStr "Austen") (PInt 1815) (shelf [dune])))
  = Library.self (shelf [dune]).
Proof.
  refine (proj1 (add_then_delete 100 (PStr "Emma") (PStr "Austen") (PInt 1815)
                   (shelf [dune]) _ _)).
  - simpl. intros [H | []]. discriminate H.
  - intros x [<- | []]. reflexivity.
Defined.

Section Part26.

Context {rt : Runtime} {attrs : Book.Attributes} {md : Menu.Medium}.

(** X9.  A book of the collection is found by a search on its title,
    author, year or status with any value whose text, in lower case,
    equals the text of the field in lower case, its own value in
    particular; and the book that [add_book] has just added is found by a
    search on the identifier announced. *)
Theorem found_by_own_fields (w : Library.world) :
  (forall key value b,
      In key ["title"; "author"; "year"; "status"] ->
      In b (Library.books (Library.self w)) ->
      Py.lower (Book.text b (Book.getattr b key (PStr "")))
      = Py.lower (Py.str value) ->
      exists r, Library.search_books [(key, value)] w = Ok r /\ In b r)
  /\ (forall key b v,
         In key ["title"; "author"; "year"; "status"] ->
         In b (Library.books (Library.self w)) ->
         Book.getattr b key (PStr "") = Book.Bound v ->
         exists r, Library.search_books [(key, v)] w = Ok r /\ In b r)
  /\ (forall a title author year,
         exists r,
           Library.search_books [("id", PInt a)]
                                (Library.add_book a title author year w)
           = Ok r
           /\ In (Book.init a title author year) r).
Proof.
  assert (H1 : forall key value b,
             In key ["title"; "author"; "year"; "status"] ->
             In b (Library.books (Library.self w)) ->
             Py.lower (Book.text b (Book.getattr b key (PStr "")))
             = Py.lower (Py.str value) ->
             exists r, Library.search_books [(key, value)] w = Ok r /\ In b r).
  { intros key value b Hkey Hb Heq.
    assert (Hid : String.eqb key "id" = false)
      by (simpl in Hkey; destruct Hkey as [<- | [<- | [<- | [<- | []]]]]; reflexivity).
    assert (Hbinds : binds [(key, value)] = true)
      by (simpl in Hkey; destruct Hkey as [<- | [<- | [<- | [<- | []]]]]; reflexivity).
    rewrite search_books_binds by exact Hbinds.
    rewrite search_loop_ok by (unfold convertible; simpl; now rewrite Hid).
    eexists. split; [reflexivity |].
    apply filter_In. split; [exact Hb |].
    simpl. unfold matches, ci_equal. cbn [fst snd].
    rewrite Hid, Heq. now rewrite String.eqb_refl. }
  split; [exact H1 | split].
  - intros key b v Hkey Hb Hv. apply H1; try assumption.
    now rewrite Hv.
  - intros a title author year. rewrite search_by_id.
    eexists. split; [reflexivity |].
    apply filter_In. split.
    + simpl. apply in_or_app. right. now left.
    + simpl. apply Z.eqb_refl.
Qed.

End Part26.

Lemma found_by_own_fields_witness :
  (exists r,
      Library.search_books [("title", PStr "EMMA")] (shelf [dune; emma]) = Ok r
      /\ In emma r)
  /\ (exists r,
         Library.search_books [("year", PInt 1965)] (shelf [dune; emma]) = Ok r
         /\ In dune r).
Proof.
  split.
  - apply (proj1 (found_by_own_fields (rt := plain_runtime) (attrs := plain_attributes)
                    (shelf [dune; emma]))
             "title" (PStr "EMMA") emma).
    + simpl. tauto.
    + simpl. tauto.
    + reflexivity.
  - apply (proj1 (proj2 (found_by_own_fields (rt := plain_runtime)
                           (attrs := plain_attributes) (shelf [dune; emma])))
             "year" dune (PInt 1965)).
    + simpl. tauto.
    + simpl. tauto.
    + reflexivity.
Defined.

(** ** The menu *)

Section Part27.

Context {rt : Runtime} {attrs : Book.Attributes} {md : Menu.Medium}.

Lemma quiet_refl (c : Menu.console) : quiet c c.
Proof. unfold quiet. auto. Qed.

Lemma quiet_trans (a b c : Menu.console) : quiet a b -> quiet b c -> quiet a c.
Proof.
  unfold quiet. intros (Hl & Hf & Hn) (Hl' & Hf' & Hn').
  rewrite Hl', Hf'. repeat split; try assumption. lia.
Qed.

Lemma post_bind {A B : Type} (R : Menu.console -> Menu.console -> Prop)
    (m : Menu.io A) (k : A -> Menu.io B) :
  (forall a b c, R a b -> R b c -> R a c) ->
  post R m -> (forall a, post R (k a)) -> post R (Menu.and_then m k).
Proof.
  intros Htrans Hm Hk c. unfold Menu.and_then. specialize (Hm c).
  destruct (m c) as [a c1 | e c1]; [| exact Hm].
  specialize (Hk a c1).
  destruct (k a c1) as [b c2 | e c2].
  - exact (Htrans _ _ _ Hm Hk).
  - destruct Hk as [Hr He]. split; [exact (Htrans _ _ _ Hm Hr) | exact He].
Qed.

Lemma post_ret {A : Type} (a : A) : post quiet (Menu.ret a).
Proof. intros c. apply quiet_refl. Qed.

Lemma post_say (lines : list string) : post quiet (Menu.say lines).
Proof. intros c. unfold quiet. simpl. auto. Qed.

Lemma post_input (prompt : string) : post quiet (Menu.input prompt).
Proof.
  intros c. unfold Menu.input, quiet.
  destruct (Menu.stdin c) as [| line rest]; simpl.
  - repeat split; auto. discriminate.
  - repeat split; auto.
Qed.

Lemma post_int_input (prompt : string) : post quiet (Menu.int_input prompt).
Proof.
  unfold Menu.int_input.
  apply post_bind; [exact quiet_trans | apply post_input |].
  intros line c. destruct (Py.int_of_string line) as [n | e] eqn:Hline.
  - apply quiet_refl.
  - split; [apply quiet_refl |].
    intros x [= <-]. exact (int_of_string_raises line e Hline).
Qed.

Lemma ask_int_rest (prompt : string) (lines shown : list string) :
  (List.length (snd (fst (Menu.ask_int prompt lines shown))) <= List.length lines)%nat
  /\ match fst (fst (Menu.ask_int prompt lines shown)) with
     | inl _ => True
     | inr e => value_error_only e
     end.
Proof.
  revert shown. induction lines as [| line rest IH]; intros shown; simpl.
  - split; [lia | discriminate].
  - destruct (Py.int_of_string line) as [n | e] eqn:Hline; simpl.
    + split; [lia | exact I].
    + rewrite (int_of_string_raises line e Hline).
      destruct (IH (shown ++ [prompt; Menu.retry])) as [Hlen He].
      split; [lia | exact He].
Qed.

Lemma post_read_int (prompt : string) : post quiet (Menu.read_int prompt).
Proof.
  intros c. unfold Menu.read_int.
  pose proof (ask_int_rest prompt (Menu.stdin c) (Menu.screen c)) as [Hlen He].
  destruct (Menu.ask_int prompt (Menu.stdin c) (Menu.screen c)) as [[[n | e] rest] shown];
    simpl in *; unfold quiet; simpl; auto.
Qed.

Lemma post_search (criteria : list (string * pyval)) :
  binds criteria = true ->
  forallb convertible criteria = true -> post quiet (Menu.search criteria).
Proof.
  intros Hbinds Hconv c. unfold Menu.search.
  rewrite (search_books_binds criteria _ Hbinds).
  rewrite (search_loop_ok criteria _ Hconv). apply quiet_refl.
Qed.

Lemma post_show (result : list Book.t) : post quiet (Menu.show result).
Proof. destruct result; apply post_say. Qed.

Lemma post_find_books (search_choice : string) :
  post quiet (Menu.find_books search_choice).
Proof.
  unfold Menu.find_books.
  repeat match goal with
         | |- post quiet (if ?b then _ else _) => destruct b
         | |- post quiet (Menu.and_then _ _) =>
             apply post_bind; [exact quiet_trans | | intros ?]
         | |- post quiet (Menu.search _) => apply post_search; reflexivity
         | |- _ => first [ apply post_ret | apply post_say | apply post_input
                         | apply post_int_input | apply post_read_int | apply post_show ]
         end.
Qed.

Section MenuKeeps.

Variable P : Library.t -> filesystem -> Prop.
Variable Q : Library.t -> Prop.
Hypothesis P_kept : kept_by_methods P.
Hypothesis Q_kept : kept_by_methods (fun self _ => Q self).
Variable heap : nat -> Z.

Lemma tame_trans (a b c : Menu.console) : tame P a b -> tame P b c -> tame P a c.
Proof. unfold tame. intros [Hn Hp] [Hn' Hp']. split; [lia | auto]. Qed.

Lemma quiet_tame (c c' : Menu.console) : quiet c c' -> tame P c c'.
Proof.
  unfold quiet, tame. intros (Hl & Hf & Hn). rewrite Hl, Hf. auto.
Qed.

Lemma held_bind {A B : Type} (m : Menu.io A) (k : A -> Menu.io B) :
  held P Q m -> (forall a, held P Q (k a)) -> held P Q (Menu.and_then m k).
Proof.
  intros Hm Hk c. unfold Menu.and_then. specialize (Hm c).
  destruct (m c) as [a c1 | e c1]; [| exact Hm].
  destruct Hm as [Hp Hq]. specialize (Hk a c1).
  destruct (k a c1) as [b c2 | e c2].
  - destruct Hk as [Hp' Hq']. split; [exact (tame_trans _ _ _ Hp Hp') | auto].
  - destruct Hk as [Hq' [[Hp' He] | Hw]].
    + split; [auto |]. left. split; [exact (tame_trans _ _ _ Hp Hp') | exact He].
    + split; [auto | now right].
Qed.

Lemma quiet_held {A : Type} (m : Menu.io A) : post quiet m -> held P Q m.
Proof.
  intros Hm c. specialize (Hm c). destruct (m c) as [a c' | e c'].
  - split; [now apply quiet_tame |]. destruct Hm as (Hl & _). now rewrite Hl.
  - destruct Hm as [Hq He]. split; [destruct Hq as (Hl & _); now rewrite Hl |].
    left. split; [now apply quiet_tame | exact He].
Qed.

(** A call of [method], which is [total] when it returns and has changed
    the library as [total] does when it raises. *)
Lemma held_call (method : writing -> Library.world -> Library.outcome)
    (total : Library.world -> Library.world) :
  (forall o w,
      match method o w with
      | Library.Returns w' => w' = total w
      | Library.Raises e w' =>
          error_of o = Some e /\ Library.self w' = Library.self (total w)
      end) ->
  (forall w, P (Library.self w) (Library.disk w) ->
             P (Library.self (total w)) (Library.disk (total w))) ->
  (forall w, Q (Library.self w) -> Q (Library.self (total w))) ->
  held P Q (Menu.call method).
Proof.
  intros Hcall Hp Hq c. unfold Menu.call.
  specialize (Hcall (Menu.write_goes c)
                    (Library.World (Menu.lib c) (Menu.files c) [])).
  destruct (method _ _) as [w' | e w'].
  - subst w'. unfold tame. simpl. split; [split; [lia |] |].
    + exact (Hp (Library.World (Menu.lib c) (Menu.files c) [])).
    + exact (Hq (Library.World (Menu.lib c) (Menu.files c) [])).
  - destruct Hcall as [He Hself]. simpl. split.
    + rewrite Hself. exact (Hq (Library.World (Menu.lib c) (Menu.files c) [])).
    + right. exists e, c. split; [reflexivity | exact He].
Qed.

Lemma held_delete (book_id : Z) :
  held P Q (Menu.call (fun o => Call.delete_book o book_id)).
Proof.
  apply (held_call _ (Library.delete_book book_id)).
  - intros o w. pose proof (delete_book_call o book_id w) as H.
    destruct (Call.delete_book o book_id w); tauto.
  - intros w Hw. exact (proj1 (proj2 (P_kept w Hw)) book_id).
  - intros w Hw. exact (proj1 (proj2 (Q_kept w Hw)) book_id).
Qed.

Lemma held_update (book_id : Z) (status : string) :
  held P Q (Menu.call (fun o => Call.update_status o book_id status)).
Proof.
  apply (held_call _ (Library.update_status book_id status)).
  - intros o w. pose proof (update_status_call o book_id status w) as H.
    destruct (Call.update_status o book_id status w); tauto.
  - intros w Hw. exact (proj2 (proj2 (P_kept w Hw)) book_id status).
  - intros w Hw. exact (proj2 (proj2 (Q_kept w Hw)) book_id status).
Qed.

Lemma held_add (title author year : pyval) :
  held P Q (Menu.add heap title author year).
Proof.
  intros c. unfold Menu.add.
  refine (held_call _ (Library.add_book (heap (Menu.allocated c)) title author year)
            _ _ _
            (Menu.Console (Menu.lib c) (Menu.files c) (Menu.screen c) (Menu.stdin c)
                          (S (Menu.allocated c)))).
  - intros o w.
    pose proof (add_book_call o (heap (Menu.allocated c)) title author year w) as H.
    destruct (Call.add_book o _ title author year w); tauto.
  - intros w Hw. exact (proj1 (P_kept w Hw) _ title author year).
  - intros w Hw. exact (proj1 (Q_kept w Hw) _ title author year).
Qed.

Lemma held_dispatch (choice : string) : held P Q (Menu.dispatch heap choice).
Proof.
  unfold Menu.dispatch.
  repeat match goal with
         | |- held P Q (if ?b then _ else _) => destruct b
         | |- held P Q (Menu.and_then _ _) => apply held_bind; [| intros ?]
         | |- held P Q (Menu.call (fun o => Call.delete_book o _)) => apply held_delete
         | |- held P Q (Menu.call (fun o => Call.update_status o _ _)) =>
             apply held_update
         | |- held P Q (Menu.add _ _ _ _) => apply held_add
         | |- held P Q (fun c => Menu.say _ c) =>
             apply quiet_held; intros c; apply (post_say _ c)
         | |- held P Q _ =>
             apply quiet_held;
             first [ apply post_ret | apply post_say | apply post_input
                   | apply post_int_input | apply post_read_int
                   | apply post_find_books ]
         end.
Qed.

(** A round that goes on has read a line at least. *)
Lemma turn_held (c : Menu.console) :
  match Menu.turn heap c with
  | Menu.Got _ c' =>
      (List.length (Menu.stdin c') < List.length (Menu.stdin c))%nat
      /\ (P (Menu.lib c) (Menu.files c) -> P (Menu.lib c') (Menu.files c'))
      /\ (Q (Menu.lib c) -> Q (Menu.lib c'))
  | Menu.Ended e c' =>
      (Q (Menu.lib c) -> Q (Menu.lib c'))
      /\ (((P (Menu.lib c) (Menu.files c) -> P (Menu.lib c') (Menu.files c'))
           /\ value_error_only e)
          \/ write_failed e)
  end.
Proof.
  unfold Menu.turn, Menu.and_then, Menu.say, Menu.input. simpl.
  destruct (Menu.stdin c) as [| choice rest] eqn:Hin; simpl.
  - split; [auto |]. left. split; [auto | discriminate].
  - pose proof (held_dispatch choice
                  (Menu.Console (Menu.lib c) (Menu.files c)
                     ((Menu.screen c ++ Menu.menu) ++ ["Выберите действие: "%string])
                     rest (Menu.allocated c))) as H.
    destruct (Menu.dispatch heap choice _) as [b c' | e c']; unfold tame in H;
      simpl in H.
    + destruct H as [[Hn Hp] Hq]. split; [lia | split; assumption].
    + destruct H as [Hq [[[Hn Hp] He] | Hw]].
      * split; [exact Hq |]. left. split; assumption.
      * split; [exact Hq | now right].
Qed.

Lemma main_loop_held (fuel : nat) (c c' : Menu.console) (e : Menu.ending) :
  Menu.main_loop heap fuel c = Some (e, c') ->
  (Q (Menu.lib c) -> Q (Menu.lib c'))
  /\ (((P (Menu.lib c) (Menu.files c) -> P (Menu.lib c') (Menu.files c'))
       /\ value_error_only e)
      \/ write_failed e).
Proof.
  revert c. induction fuel as [| fuel IH]; intros c; simpl; [discriminate |].
  pose proof (turn_held c) as H.
  destruct (Menu.turn heap c) as [[|] c1 | e1 c1].
  - intros Hloop. destruct H as (_ & Hp & Hq).
    destruct (IH c1 Hloop) as [Hq' [[Hp' He] | Hw]].
    + split; [auto |]. left. split; [auto | exact He].
    + split; [auto | now right].
  - intros [= <- <-]. destruct H as (_ & Hp & Hq).
    split; [exact Hq |]. left. split; [exact Hp | discriminate].
  - intros [= <- <-]. exact H.
Qed.

Lemma main_loop_ends (fuel : nat) (c : Menu.console) :
  (List.length (Menu.stdin c) < fuel)%nat ->
  exists e c', Menu.main_loop heap fuel c = Some (e, c').
Proof.
  revert c. induction fuel as [| fuel IH]; intros c Hfuel; [lia |]. simpl.
  pose proof (turn_held c) as H.
  destruct (Menu.turn heap c) as [[|] c1 | e1 c1].
  - apply IH. destruct H as [Hn _]. lia.
  - now exists Menu.Exited, c1.
  - now exists e1, c1.
Qed.

End MenuKeeps.

Lemma ask_int_skips (prompt : string) (bad tail shown : list string) :
  Forall not_a_number bad ->
  Menu.ask_int prompt (bad ++ tail) shown
  = Menu.ask_int prompt tail
      (shown ++ flat_map (fun _ => [prompt; Menu.retry]) bad).
Proof.
  intros Hbad. revert shown.
  induction Hbad as [| line bad Hline _ IH]; intros shown; simpl.
  - now rewrite app_nil_r.
  - unfold not_a_number in Hline. rewrite Hline, IH.
    now rewrite <- app_assoc.
Qed.

(** X11.  Where the menu asks for an identifier, every line that is no
    number is answered by the notice and the question again, the first
    line that is a number is the identifier taken, and the lines after it
    are left unread; if no number ever comes, the program ends on the end
    of the input.  The library and the files are not touched. *)
Theorem read_int_asks_again (prompt : string) (c : Menu.console) (bad : list string) :
  Forall not_a_number bad ->
  (forall good n rest,
      Menu.stdin c = bad ++ good :: rest ->
      Py.int_of_string good = Ok n ->
      Menu.read_int prompt c
      = Menu.Got n
          (Menu.Console (Menu.lib c) (Menu.files c)
             (Menu.screen c ++ flat_map (fun _ => [prompt; Menu.retry]) bad ++ [prompt])
             rest (Menu.allocated c)))
  /\ (Menu.stdin c = bad ->
      Menu.read_int prompt c
      = Menu.Ended Menu.EOFError
          (Menu.Console (Menu.lib c) (Menu.files c)
             (Menu.screen c ++ flat_map (fun _ => [prompt; Menu.retry]) bad ++ [prompt])
             [] (Menu.allocated c))).
Proof.
  intros Hbad. unfold Menu.read_int. split.
  - intros good n rest Hin Hgood.
    rewrite Hin, (ask_int_skips prompt bad _ _ Hbad). simpl.
    rewrite Hgood. now rewrite <- app_assoc.
  - intros Hin. rewrite Hin.
    rewrite <- (app_nil_r bad) at 1.
    rewrite (ask_int_skips prompt bad [] _ Hbad). simpl.
    now rewrite <- app_assoc.
Qed.

End Part27.

Lemma read_int_asks_again_witness :
  Menu.read_int "ID: " (Menu.Console (Library.mk "library.json" [dune]) no_files []
                          ["seven"; "7.0"; " 7 "; "6"] 1)
  = Menu.Got 7
      (Menu.Console (Library.mk "library.json" [dune]) no_files
         ["ID: "; Menu.retry; "ID: "; Menu.retry; "ID: "] ["6"] 1).
Proof.
  refine (proj1 (read_int_asks_again "ID: "
                   (Menu.Console (Library.mk "library.json" [dune]) no_files []
                      ["seven"; "7.0"; " 7 "; "6"] 1)
                   ["seven"; "7.0"] _)
            " 7 " 7 ["6"] _ _).
  - apply Forall_cons; [reflexivity | apply Forall_cons; [reflexivity | apply Forall_nil]].
  - reflexivity.
  - reflexivity.
Defined.

Section Part28.

Context {rt : Runtime} {attrs : Book.Attributes} {md : Menu.Medium}.

Lemma trivially_kept : kept_by_methods (fun _ _ => True).
Proof. intros w _. auto. Qed.

(** X12.  [main] comes to an end on every input: it leaves by option 6,
    stops at the end of the input or is ended by an exception.  Every
    round of the menu reads at least one line, so no input of finitely
    many lines keeps the loop going. *)
Theorem main_terminates (heap : nat -> Z) (disk : filesystem) (lines : list string) :
  (exists e c, Menu.main heap disk lines = Some (e, c))
  /\ (forall c fuel,
         (List.length (Menu.stdin c) < fuel)%nat ->
         exists e c', Menu.main_loop heap fuel c = Some (e, c')).
Proof.
  split.
  - unfold Menu.main.
    destruct (Library.init "library.json" heap disk) as [w | e].
    + apply (main_loop_ends _ _ trivially_kept trivially_kept). simpl. lia.
    + eauto.
  - intros c fuel. apply (main_loop_ends _ _ trivially_kept trivially_kept).
Qed.

End Part28.

Lemma main_terminates_witness :
  exists e c,
    Menu.main_loop (fun i => Z.of_nat (100 + i)) 7
      (Menu.Console (Library.mk "library.json" []) no_files [] session 0)
    = Some (e, c).
Proof.
  refine (proj2 (main_terminates (fun i => Z.of_nat (100 + i)) no_files [])
            (Menu.Console (Library.mk "library.json" []) no_files [] session 0) 7%nat _).
  simpl. lia.
Defined.

Section Part29.

Context {rt : Runtime} {attrs : Book.Attributes} {md : Menu.Medium}.

(** X13.  A year that is no number ends the program: nothing catches the
    [ValueError] of its conversion, neither when a book is added nor when
    books are searched by year.  The title and the author typed before
    are lost, and the library and the files stay as they were. *)
Theorem bad_year_ends_main (heap : nat -> Z) (c : Menu.console)
    (year : string) (rest : list string) (fuel : nat) :
  not_a_number year ->
  (forall title author,
      Menu.stdin c = "1" :: title :: author :: year :: rest ->
      exists c',
        Menu.main_loop heap (S fuel) c = Some (Menu.Uncaught ValueError, c')
        /\ Menu.lib c' = Menu.lib c /\ Menu.files c' = Menu.files c
        /\ Menu.stdin c' = rest)
  /\ (Menu.stdin c = "3" :: "4" :: year :: rest ->
      exists c',
        Menu.main_loop heap (S fuel) c = Some (Menu.Uncaught ValueError, c')
        /\ Menu.lib c' = Menu.lib c /\ Menu.files c' = Menu.files c
        /\ Menu.stdin c' = rest).
Proof.
  unfold not_a_number. intros Hyear. split.
  - intros title author Hin. simpl.
    unfold Menu.turn, Menu.and_then, Menu.say, Menu.input. simpl. rewrite Hin.
    cbn. unfold Menu.int_input, Menu.and_then, Menu.input. cbn.
    rewrite Hyear. eexists. split; [reflexivity |]. repeat split.
  - intros Hin. simpl.
    unfold Menu.turn, Menu.and_then, Menu.say, Menu.input. simpl. rewrite Hin.
    cbn. unfold Menu.int_input, Menu.and_then, Menu.input. cbn.
    rewrite Hyear. eexists. split; [reflexivity |]. repeat split.
Qed.

End Part29.

Lemma bad_year_ends_main_witness :
  exists c',
    Menu.main_loop Z.of_nat 1
      (Menu.Console (Library.mk "library.json" [dune]) no_files []
         ["1"; "Emma"; "Austen"; "MDCCCXV"; "6"] 1)
    = Some (Menu.Uncaught ValueError, c')
    /\ Menu.lib c' = Library.mk "library.json" [dune]
    /\ Menu.files c' = no_files
    /\ Menu.stdin c' = ["6"].
Proof.
  refine (proj1 (bad_year_ends_main Z.of_nat
                   (Menu.Console (Library.mk "library.json" [dune]) no_files []
                      ["1"; "Emma"; "Austen"; "MDCCCXV"; "6"] 1)
                   "MDCCCXV" ["6"] 0 _)
            "Emma" "Austen" _); reflexivity.
Defined.

Section Part30.

Context {rt : Runtime} {attrs : Book.Attributes} {md : Menu.Medium}.

Lemma init_keeps_disk (path : string) (alloc : nat -> Z) (disk : filesystem)
    (w : Library.world) :
  Library.init path alloc disk = Ok w -> Library.disk w = disk.
Proof.
  unfold Library.init, Library.load_books. simpl.
  destruct (disk path) as [| | | | e | data];
    [now intros [= <-] | discriminate | discriminate | discriminate
     | discriminate |].
  destruct (Py.iter data) as [items |]; [| discriminate]. simpl.
  destruct (mapiM _ 0 items) as [bs |]; [| discriminate].
  simpl. now intros [= <-].
Qed.

Lemma untouched_or_synced_kept (disk0 : filesystem) :
  kept_by_methods (untouched_or_synced disk0).
Proof.
  intros w Hw. unfold untouched_or_synced in *. repeat split.
  - intros a title author year. right. apply add_book_synced.
  - intros book_id. unfold Library.delete_book.
    destruct (Library.scan book_id (Library.books (Library.self w))) as [book |];
      [| exact Hw].
    right.
    exact (save_books_synced
             (Library.set_books w (Library.list_remove book
                                     (Library.books (Library.self w))))).
  - intros book_id status. unfold Library.update_status.
    destruct (existsb (String.eqb status) Library.statuses); simpl; [| exact Hw].
    destruct (Library.scan book_id (Library.books (Library.self w))) as [book |];
      [| exact Hw].
    right.
    exact (save_books_synced
             (Library.set_books w (Library.assign_status book (PStr status)
                                     (Library.books (Library.self w))))).
Qed.

Lemma sound_never_fails (e : Menu.ending) :
  (forall c, Menu.write_goes c = Completes) -> ~ write_failed e.
Proof.
  intros Hsound (x & c & _ & Hx). rewrite (Hsound c) in Hx. discriminate Hx.
Qed.

(** X14.  [main] leaves no change unsaved unless a writing of the file
    fails: however it ends, and whatever was typed, either the files are
    exactly as it found them, or the backing file holds the collection
    that is in memory, or [main] has been ended by the exception of a
    writing that did not complete.  Where every writing completes, one of
    the first two holds. *)
Theorem main_leaves_nothing_unsaved (heap : nat -> Z) (disk : filesystem)
    (lines : list string) (e : Menu.ending) (c : Menu.console) :
  Menu.main heap disk lines = Some (e, c) ->
  (Menu.files c = disk \/ synced (Menu.lib c) (Menu.files c) \/ write_failed e)
  /\ ((forall c0, Menu.write_goes c0 = Completes) ->
      Menu.files c = disk \/ synced (Menu.lib c) (Menu.files c)).
Proof.
  assert (H : Menu.main heap disk lines = Some (e, c) ->
              (Menu.files c = disk \/ synced (Menu.lib c) (Menu.files c))
              \/ write_failed e).
  { unfold Menu.main.
    destruct (Library.init "library.json" heap disk) as [w | x] eqn:Hinit.
    - intros Hloop.
      destruct (main_loop_held _ (fun _ => True) (untouched_or_synced_kept disk)
                  trivially_kept heap _ _ _ _ Hloop) as [_ [[Hp _] | Hw]].
      + left. apply Hp. left. simpl. exact (init_keeps_disk _ _ _ _ Hinit).
      + now right.
    - intros [= <- <-]. left. now left. }
  intros Hmain. destruct (H Hmain) as [Hok | Hw].
  - split; [tauto | intros _; exact Hok].
  - split; [tauto |]. intros Hsound. now elim (sound_never_fails e Hsound).
Qed.

End Part30.

Lemma main_leaves_nothing_unsaved_witness :
  match Menu.main (fun i => Z.of_nat (100 + i)) no_files session with
  | Some (_, c) => Menu.files c = no_files \/ synced (Menu.lib c) (Menu.files c)
  | None => False
  end.
Proof.
  destruct (Menu.main (fun i => Z.of_nat (100 + i)) no_files session)
    as [[e c] |] eqn:H.
  - exact (proj2 (main_leaves_nothing_unsaved _ _ _ _ _ H) (fun _ => eq_refl)).
  - vm_compute in H. discriminate H.
Defined.

Section Part31.

Context {rt : Runtime} {attrs : Book.Attributes} {md : Menu.Medium}.

(** X15.  Once the library is built, the end of the input apart, the
    only exceptions that can end [main] are the [ValueError] of a year
    that is no number and the exception of a writing of the file that
    did not complete: the menu hands [search_books] and the other methods
    nothing else they raise on.  Any other uncaught exception comes from
    building the library.  Where every writing completes, only the
    [ValueError] is left. *)
Theorem main_uncaught_exceptions (heap : nat -> Z) :
  (forall fuel c c' x,
      Menu.main_loop heap fuel c = Some (Menu.Uncaught x, c') ->
      x = ValueError \/ write_failed (Menu.Uncaught x))
  /\ (forall disk lines c x,
         Menu.main heap disk lines = Some (Menu.Uncaught x, c) ->
         x = ValueError
         \/ write_failed (Menu.Uncaught x)
         \/ Library.init "library.json" heap disk = Raise x)
  /\ ((forall c0, Menu.write_goes c0 = Completes) ->
      forall fuel c c' x,
        Menu.main_loop heap fuel c = Some (Menu.Uncaught x, c') -> x = ValueError).
Proof.
  assert (H : forall fuel c c' x,
             Menu.main_loop heap fuel c = Some (Menu.Uncaught x, c') ->
             x = ValueError \/ write_failed (Menu.Uncaught x)).
  { intros fuel c c' x Hloop.
    destruct (main_loop_held _ (fun _ => True) trivially_kept trivially_kept
                heap _ _ _ _ Hloop) as [_ [[_ He] | Hw]].
    - left. exact (He x eq_refl).
    - now right. }
  split; [exact H | split].
  - intros disk lines c x. unfold Menu.main.
    destruct (Library.init "library.json" heap disk) as [w | e].
    + intros Hloop. destruct (H _ _ _ _ Hloop) as [Hx | Hw]; tauto.
    + intros [= <- <-]. right. now right.
  - intros Hsound fuel c c' x Hloop. destruct (H _ _ _ _ Hloop) as [Hx | Hw].
    + exact Hx.
    + now elim (sound_never_fails _ Hsound Hw).
Qed.

End Part31.

Lemma main_uncaught_exceptions_witness :
  match Menu.main_loop Z.of_nat 2
          (Menu.Console (Library.mk "library.json" [dune]) no_files []
             ["3"; "1"; "seven"; "7"; "3"; "4"; "MCMLXV"; "6"] 1) with
  | Some (Menu.Uncaught x, _) => x = ValueError
  | _ => False
  end
  /\ match Menu.main_loop (md := locked_medium) Z.of_nat 1
            (Menu.Console (Library.mk "library.json" [dune]) no_files []
               ["2"; "7"; "6"] 1) with
     | Some (Menu.Uncaught x, c') =>
         (x = ValueError \/ write_failed (md := locked_medium) (Menu.Uncaught x))
         /\ x = OSError
         /\ Menu.lib c' = Library.mk "library.json" []
         /\ Menu.files c' = no_files
     | _ => False
     end.
Proof.
  split.
  - destruct (Menu.main_loop Z.of_nat 2
                (Menu.Console (Library.mk "library.json" [dune]) no_files []
                   ["3"; "1"; "seven"; "7"; "3"; "4"; "MCMLXV"; "6"] 1))
      as [[[| | x] c'] |] eqn:H; try (vm_compute in H; discriminate H).
    exact (proj2 (proj2 (main_uncaught_exceptions Z.of_nat)) (fun _ => eq_refl)
             _ _ _ _ H).
  - destruct (Menu.main_loop (md := locked_medium) Z.of_nat 1
                (Menu.Console (Library.mk "library.json" [dune]) no_files []
                   ["2"; "7"; "6"] 1))
      as [[[| | x] c'] |] eqn:H; try (vm_compute in H; discriminate H).
    split.
    + exact (proj1 (main_uncaught_exceptions (md := locked_medium) Z.of_nat)
               _ _ _ _ H).
    + vm_compute in H. injection H as <- <-. repeat split.
Defined.

Section Part32.

Context {rt : Runtime} {attrs : Book.Attributes} {md : Menu.Medium}.

Lemma statuses_kept :
  kept_by_methods (fun self _ => Forall status_listed (Library.books self)).
Proof.
  intros w Hw. repeat split.
  - intros a title author year. simpl.
    apply Forall_app. split; [exact Hw |].
    apply Forall_cons; [| apply Forall_nil].
    exists "в наличии"%string. split; [now left | reflexivity].
  - intros book_id. unfold Library.delete_book.
    destruct (Library.scan book_id (Library.books (Library.self w))) as [book |];
      simpl; [| exact Hw].
    rewrite Forall_forall in Hw |- *.
    intros x Hx. apply Hw. now apply (list_remove_subset book).
  - intros book_id status. unfold Library.update_status.
    destruct (existsb (String.eqb status) Library.statuses) eqn:Hex; simpl;
      [| exact Hw].
    destruct (Library.scan book_id (Library.books (Library.self w))); simpl;
      [| exact Hw].
    apply assign_status_listed; [now apply statuses_checked | exact Hw].
Qed.

(** X16.  Nothing typed at the menu gives a book a status other than the
    two: if every book of the library has one of the two statuses when
    the loop starts, every book has one of them when [main] ends. *)
Theorem menu_keeps_statuses (heap : nat -> Z) (fuel : nat) (c c' : Menu.console)
    (e : Menu.ending) :
  Forall status_listed (Library.books (Menu.lib c)) ->
  Menu.main_loop heap fuel c = Some (e, c') ->
  Forall status_listed (Library.books (Menu.lib c')).
Proof.
  intros Hc Hloop.
  exact (proj1 (main_loop_held (fun _ _ => True) _ trivially_kept statuses_kept
                  heap _ _ _ _ Hloop) Hc).
Qed.

End Part32.

Lemma menu_keeps_statuses_witness :
  match Menu.main_loop Z.of_nat 3
          (Menu.Console (Library.mk "library.json" [dune]) no_files []
             ["5"; "7"; "borrowed"; "5"; "7"; "выдана"; "6"] 1) with
  | Some (_, c') => Forall status_listed (Library.books (Menu.lib c'))
  | None => False
  end.
Proof.
  destruct (Menu.main_loop Z.of_nat 3
              (Menu.Console (Library.mk "library.json" [dune]) no_files []
                 ["5"; "7"; "borrowed"; "5"; "7"; "выдана"; "6"] 1))
    as [[e c'] |] eqn:H.
  - refine (menu_keeps_statuses Z.of_nat 3 _ c' e _ H).
    apply Forall_cons; [| apply Forall_nil].
    exists "в наличии"%string. split; [now left | reflexivity].
  - vm_compute in H. discriminate H.
Defined.

Section Part33.

Context {rt : Runtime} {attrs : Book.Attributes} {md : Menu.Medium}.

(** X17.  Only options 1, 2 and 5 can change anything: on any other
    choice, searching and listing included, the round leaves the library
    and the files exactly as they were, however it ends. *)
Theorem other_options_change_nothing (heap : nat -> Z) (choice : string)
    (c : Menu.console) :
  ~ In choice ["1"; "2"; "5"] ->
  match Menu.dispatch heap choice c with
  | Menu.Got _ c' | Menu.Ended _ c' =>
      Menu.lib c' = Menu.lib c /\ Menu.files c' = Menu.files c
  end.
Proof.
  intros Hchoice.
  assert (Hq : post quiet (Menu.dispatch heap choice)).
  { unfold Menu.dispatch.
    destruct (String.eqb_spec choice "1") as [-> | _];
      [exfalso; apply Hchoice; simpl; tauto |].
    destruct (String.eqb_spec choice "2") as [-> | _];
      [exfalso; apply Hchoice; simpl; tauto |].
    destruct (String.eqb_spec choice "5") as [-> | _].
    { exfalso. apply Hchoice. simpl. tauto. }
    repeat match goal with
           | |- post quiet (if ?b then _ else _) => destruct b
           | |- post quiet (Menu.and_then _ _) =>
               apply post_bind; [exact quiet_trans | | intros ?]
           | |- post quiet (fun c => Menu.say _ c) => intros c0; apply (post_say _ c0)
           | |- _ => first [ apply post_ret | apply post_say | apply post_input
                           | apply post_find_books ]
           end. }
  specialize (Hq c). unfold quiet in Hq.
  destruct (Menu.dispatch heap choice c) as [b c' | e c']; tauto.
Qed.

End Part33.

Lemma other_options_change_nothing_witness :
  match Menu.dispatch Z.of_nat "3"
          (Menu.Console (Library.mk "library.json" [dune]) no_files []
             ["3"; "herbert"] 1) with
  | Menu.Got _ c' | Menu.Ended _ c' =>
      Menu.lib c' = Library.mk "library.json" [dune] /\ Menu.files c' = no_files
  end.
Proof.
  refine (other_options_change_nothing Z.of_nat "3"
            (Menu.Console (Library.mk "library.json" [dune]) no_files []
               ["3"; "herbert"] 1) _).
  simpl. intros H. repeat (destruct H as [H | H]; [discriminate H |]). exact H.
Defined.
